(** * Unified LLM client (skills/llm-integration/scripts/llm_client.py)

    A shallow embedding of [LLMClient] and of the command-line driver
    [main], with the properties of the design specification proved (or
    refuted) against it.

    Conventions of the embedding.
    - A Python [str] is a Rocq [string]; its characters are the code
      points 0..255.  [str.lower], [str.strip] are Python's, restricted
      to that range.
    - A Python [float] is a primitive binary64 [float]; a Python [int] a [Z].
    - A [dict] used as a map is a [gmap] with [string] keys.
    - Exceptions are values of [exn]; a call returns [Ok v] or [Raise e].
    - [self] and the outside world (environment variables, the provider
      SDKs, the log of outbound SDK calls) are threaded explicitly.
    - The provider SDK packages are assumed installed: the function-level
      [import] statements succeed. *)

From Stdlib Require Import ZArith NArith String Ascii PrimFloat.
From stdpp Require Import base option list gmap strings.

Local Open Scope string_scope.
#[global] Set Warnings "-inexact-float".

(** ** Python strings *)

Module PyStr.

(** [s.startswith(p)] *)
Fixpoint startswith (p s : string) : bool :=
  match p, s with
  | EmptyString, _ => true
  | String a p', String b s' => Ascii.eqb a b && startswith p' s'
  | String _ _, EmptyString => false
  end.

(** [p in s] *)
Fixpoint contains (p s : string) : bool :=
  startswith p s ||
  match s with
  | EmptyString => false
  | String _ s' => contains p s'
  end.

(** [c.lower()] for one code point below 256: the ASCII capitals and the
    Latin-1 capitals U+00C0..U+00DE (U+00D7, the multiplication sign, is
    not a letter) move up by 32; everything else is unchanged. *)
Definition lower_char (c : ascii) : ascii :=
  let n := N_of_ascii c in
  if ((65 <=? n) && (n <=? 90))%N
     || ((192 <=? n) && (n <=? 222) && negb (n =? 215))%N
  then ascii_of_N (n + 32)
  else c.

(** [s.lower()] *)
Fixpoint lower (s : string) : string :=
  match s with
  | EmptyString => EmptyString
  | String c s' => String (lower_char c) (lower s')
  end.

(** [s.replace(old, "")] for a non-empty [old]: the non-overlapping
    occurrences of [old] are deleted, scanning from the left.  [skip]
    counts the characters of the occurrence just matched that are still
    to be dropped. *)
Fixpoint remove_from (old : string) (skip : nat) (s : string) : string :=
  match s with
  | EmptyString => EmptyString
  | String c s' =>
      match skip with
      | S k => remove_from old k s'
      | O =>
          if startswith old s
          then remove_from old (String.length old - 1) s'
          else String c (remove_from old 0 s')
      end
  end.

Definition remove (old s : string) : string := remove_from old 0 s.

(** Truth value of a string: [bool(s)]. *)
Definition truthy (s : string) : bool :=
  match s with EmptyString => false | _ => true end.

End PyStr.

(** ** Provider detection *)

(** [LLMClient._get_provider] *)
Definition _get_provider (model : string) : string :=
  let model_lower := PyStr.lower model in
  if PyStr.startswith "ollama/" model_lower then "ollama"
  else if PyStr.contains "gpt" model_lower
          || PyStr.contains "o1" model_lower
          || PyStr.startswith "ft:" model_lower then "openai"
  else if PyStr.contains "claude" model_lower then "anthropic"
  else if PyStr.contains "gemini" model_lower then "gemini"
  else "ollama".

(** ** Exceptions and results *)

Inductive exn : Type :=
| ValueError (msg : string)
| KeyError (key : string)
| IndexError
| AttributeError (attr : string)
| TypeError (msg : string)
| SdkError (msg : string).
(** [SdkError] stands for every exception that originates inside a provider
    SDK (transport, authentication, API errors), with its text.  All the
    exceptions above derive from Python's [Exception]. *)

(** [str(e)] *)
Definition exn_str (e : exn) : string :=
  match e with
  | ValueError msg => msg
  | KeyError key => "'" ++ key ++ "'"
  | IndexError => "list index out of range"
  | AttributeError attr => "object has no attribute '" ++ attr ++ "'"
  | TypeError msg => msg
  | SdkError msg => msg
  end.

Inductive result (A : Type) : Type :=
| Ok (v : A)
| Raise (e : exn).
Arguments Ok {A} v.
Arguments Raise {A} e.

Definition is_ok {A} (r : result A) : bool :=
  match r with Ok _ => true | Raise _ => false end.

(** The error of [_get_gemini] for a missing key. *)
Definition ConfigurationError : exn :=
  ValueError "GEMINI_API_KEY or GOOGLE_API_KEY environment variable required".

(** ** Python values used by the client *)

(** Truth value of an [Optional[str]]. *)
Definition opt_truthy (o : option string) : bool :=
  match o with Some s => PyStr.truthy s | None => false end.

(** [a or b] on [Optional[str]]. *)
Definition py_or (a b : option string) : option string :=
  if opt_truthy a then a else b.

(** [str(v)] of an [Optional[str]], as [print] shows it. *)
Definition opt_str (o : option string) : string :=
  match o with Some s => s | None => "None" end.

(** [seq[0]] on a list. *)
Definition first {A} (l : list A) : result A :=
  match l with x :: _ => Ok x | [] => Raise IndexError end.

(** The error of [None[0]]. *)
Definition NotSubscriptable : exn :=
  TypeError "'NoneType' object is not subscriptable".

(** The value that [v[0]] indexes, for a [v] that is a list or [None]. *)
Definition subscriptable {A} (v : option (list A)) : result (list A) :=
  match v with Some l => Ok l | None => Raise NotSubscriptable end.

(** [d[k]] on a dict. *)
Definition getitem {V} (d : gmap string V) (k : string) : result V :=
  match d !! k with Some v => Ok v | None => Raise (KeyError k) end.

(** A chat message [{"role": r, "content": c}]. *)
Record Message : Type := { role : string; content : string }.

(** Values passed as keyword arguments to the SDKs. *)
Inductive kwarg : Type :=
| KNone
| KBool (b : bool)
| KInt (n : Z)
| KFloat (x : float)
| KStr (s : string)
| KMessages (ms : list Message)
| KDict (d : gmap string string).

(** [bool(v)] *)
Definition kw_truthy (v : kwarg) : bool :=
  match v with
  | KNone => false
  | KBool b => b
  | KInt n => negb (n =? 0)%Z
  | KFloat x => negb (PrimFloat.eqb x 0)
  | KStr s => PyStr.truthy s
  | KMessages ms => match ms with [] => false | _ => true end
  | KDict d => negb (bool_decide (d = ∅))
  end.

(** Identity of a client object built by an SDK constructor. *)
Definition handle : Type := nat.

(** ** Reply shapes of the four SDKs *)

Module Ollama.
(** A reply or a streamed chunk: a dict with a ["message"] dict that has
    a ["content"] entry. *)
Abbreviation Response := (gmap string (gmap string (option string))).
(** The reply of [ollama.list()]: a dict whose ["models"] entry is a list
    of dicts. *)
Abbreviation Listing := (gmap string (list (gmap string string))).
End Ollama.

Module OpenAI.
Record ChatCompletionMessage : Type := { content : option string }.
Record Choice : Type := { message : ChatCompletionMessage }.
(** The SDK builds its reply objects without validating them: a reply
    that came without [choices] has [choices = None]. *)
Record ChatCompletion : Type := { choices : option (list Choice) }.
Record ChoiceDelta : Type := { delta_content : option string }.
Record ChunkChoice : Type := { delta : ChoiceDelta }.
Record ChatCompletionChunk : Type := { chunk_choices : list ChunkChoice }.
End OpenAI.

Module Anthropic.
(** A content block is a text block (it has [.text]) or one of the other
    kinds (tool use, thinking, ...), which have no [.text]. *)
Inductive ContentBlock : Type :=
| TextBlock (text : string)
| OtherBlock (kind : string).
(** As for OpenAI, a message that came without [content] has
    [content = None]. *)
Record Message : Type := { content : option (list ContentBlock) }.
End Anthropic.

Module Gemini.
Record GenerateContentConfig : Type := {
  temperature : float;
  max_output_tokens : Z;
  system_instruction : option string
}.
(** [response.text] is [None] when the reply has no text part. *)
Record GenerateContentResponse : Type := { text : option string }.
End Gemini.

(** What an SDK hands back for a streaming call: the chunks that arrive,
    then normal completion or an SDK failure. *)
Record Stream (A : Type) : Type := { items : list A; failure : option string }.
Arguments items {A} _.
Arguments failure {A} _.

(** ** Outbound SDK calls *)

Inductive call : Type :=
| OllamaChat (model : string) (messages : list Message)
             (options : gmap string kwarg) (stream : bool)
| OllamaList
| NewOpenAI
| NewAnthropic
| NewGenaiClient (api_key : string)
| OpenAICreate (client : handle) (kw : gmap string kwarg)
| AnthropicCreate (client : handle) (kw : gmap string kwarg)
| AnthropicStream (client : handle) (kw : gmap string kwarg)
| GeminiGenerate (client : handle) (model contents : string)
                 (config : Gemini.GenerateContentConfig)
| GeminiGenerateStream (client : handle) (model contents : string)
                       (config : Gemini.GenerateContentConfig).

(** The behaviour of the SDKs and of everything behind them, over a state
    [Ext] of the outside world.  A call answers with a reply ([inr]) or
    fails with an error text ([inl]). *)
Record SDK (Ext : Type) : Type := {
  ollama_chat :
    string -> list Message -> gmap string kwarg -> Ext -> (string + Ollama.Response) * Ext;
  ollama_chat_stream :
    string -> list Message -> gmap string kwarg -> Ext ->
    (string + Stream Ollama.Response) * Ext;
  ollama_list : Ext -> (string + Ollama.Listing) * Ext;
  new_OpenAI : Ext -> (string + unit) * Ext;
  new_Anthropic : Ext -> (string + unit) * Ext;
  new_genai_Client : string -> Ext -> (string + unit) * Ext;
  openai_create :
    handle -> gmap string kwarg -> Ext -> (string + OpenAI.ChatCompletion) * Ext;
  openai_create_stream :
    handle -> gmap string kwarg -> Ext ->
    (string + Stream OpenAI.ChatCompletionChunk) * Ext;
  anthropic_create :
    handle -> gmap string kwarg -> Ext -> (string + Anthropic.Message) * Ext;
  anthropic_stream :
    handle -> gmap string kwarg -> Ext -> (string + Stream string) * Ext;
  gemini_generate_content :
    handle -> string -> string -> Gemini.GenerateContentConfig -> Ext ->
    (string + Gemini.GenerateContentResponse) * Ext;
  gemini_generate_content_stream :
    handle -> string -> string -> Gemini.GenerateContentConfig -> Ext ->
    (string + Stream Gemini.GenerateContentResponse) * Ext
}.

(** ** The client object, the world, and the monad of client code *)

(** [LLMClient.__init__]: the three lazily built SDK clients. *)
Record LLMClient : Type := {
  _openai_client : option handle;
  _anthropic_client : option handle;
  _gemini_client : option handle
}.

Definition LLMClient_init : LLMClient :=
  {| _openai_client := None; _anthropic_client := None; _gemini_client := None |}.

(** The process environment ([os.environ]), the next fresh object identity,
    the log of outbound SDK calls (oldest first), and the outside world. *)
Record World (Ext : Type) : Type := {
  environ : gmap string string;
  next_id : nat;
  calls : list call;
  ext : Ext
}.
Arguments environ {Ext} _.
Arguments next_id {Ext} _.
Arguments calls {Ext} _.
Arguments ext {Ext} _.

Definition State (Ext : Type) : Type := (LLMClient * World Ext)%type.

(** A computation of client code: it ends with a value or an exception, and
    in both cases leaves a state behind. *)
Definition M (Ext A : Type) : Type := State Ext -> result A * State Ext.

Definition ret {Ext A} (v : A) : M Ext A := fun s => (Ok v, s).
Definition raise {Ext A} (e : exn) : M Ext A := fun s => (Raise e, s).
Definition bind {Ext A B} (m : M Ext A) (k : A -> M Ext B) : M Ext B :=
  fun s =>
    match m s with
    | (Ok v, s') => k v s'
    | (Raise e, s') => (Raise e, s')
    end.
Definition lift {Ext A} (r : result A) : M Ext A := fun s => (r, s).

#[global] Instance result_ret : MRet result := @Ok.
#[global] Instance result_bind : MBind result := fun A B k r =>
  match r with Ok v => k v | Raise e => Raise e end.
#[global] Instance M_ret {Ext} : MRet (M Ext) := @ret Ext.
#[global] Instance M_bind {Ext} : MBind (M Ext) := fun A B k m => bind m k.

(** A generator run to exhaustion: the fragments it yielded, in order, and
    how it ended ([None]: normally; [Some e]: by raising [e]). *)
Record gen_run : Type := { yielded : list string; ended : option exn }.

Definition G (Ext : Type) : Type := State Ext -> gen_run * State Ext.

(** The part of a generator body that runs before the loop. *)
Definition gen_bind {Ext A} (m : M Ext A) (k : A -> G Ext) : G Ext :=
  fun s =>
    match m s with
    | (Ok v, s') => k v s'
    | (Raise e, s') => ({| yielded := []; ended := Some e |}, s')
    end.

(** [for x in stream: body], where [body x] yields some fragments or
    raises. *)
Fixpoint for_each {A} (body : A -> result (list string))
    (xs : list A) (fail : option string) : gen_run :=
  match xs with
  | [] => {| yielded := []; ended := SdkError <$> fail |}
  | x :: rest =>
      match body x with
      | Raise e => {| yielded := []; ended := Some e |}
      | Ok ys =>
          let r := for_each body rest fail in
          {| yielded := ys ++ yielded r; ended := ended r |}
      end
  end.

Definition gen_for {Ext A} (body : A -> result (list string))
    (st : Stream A) : G Ext :=
  fun s => (for_each body (items st) (failure st), s).

Section Client.
Context {Ext : Type} (sdk : SDK Ext).

(** An SDK call: logged, then answered by the SDK. *)
Definition sdk_call {A} (c : call) (f : Ext -> (string + A) * Ext) : M Ext A :=
  fun '(self, w) =>
    let '(r, e') := f (ext w) in
    let w' := {| environ := environ w; next_id := next_id w;
                 calls := calls w ++ [c]; ext := e' |} in
    (match r with inl msg => Raise (SdkError msg) | inr a => Ok a end, (self, w')).

(** An SDK constructor: logged; on success the new object gets a fresh
    identity. *)
Definition sdk_new (c : call) (f : Ext -> (string + unit) * Ext) : M Ext handle :=
  fun '(self, w) =>
    let '(r, e') := f (ext w) in
    match r with
    | inl msg =>
        (Raise (SdkError msg),
         (self, {| environ := environ w; next_id := next_id w;
                   calls := calls w ++ [c]; ext := e' |}))
    | inr _ =>
        (Ok (next_id w),
         (self, {| environ := environ w; next_id := S (next_id w);
                   calls := calls w ++ [c]; ext := e' |}))
    end.

(** [os.environ.get(k)] *)
Definition environ_get (k : string) : M Ext (option string) :=
  fun '(self, w) => (Ok (environ w !! k), (self, w)).

Definition get_self : M Ext LLMClient := fun '(self, w) => (Ok self, (self, w)).
Definition set_self (self' : LLMClient) : M Ext unit :=
  fun '(_, w) => (Ok tt, (self', w)).

(** *** Client registry *)

(** [LLMClient._get_openai] *)
Definition _get_openai : M Ext handle :=
  self ← get_self ;
  match _openai_client self with
  | None =>
      c ← sdk_new NewOpenAI (new_OpenAI _ sdk) ;
      set_self {| _openai_client := Some c;
                  _anthropic_client := _anthropic_client self;
                  _gemini_client := _gemini_client self |} ;;
      ret c
  | Some c => ret c
  end.

(** [LLMClient._get_anthropic] *)
Definition _get_anthropic : M Ext handle :=
  self ← get_self ;
  match _anthropic_client self with
  | None =>
      c ← sdk_new NewAnthropic (new_Anthropic _ sdk) ;
      set_self {| _openai_client := _openai_client self;
                  _anthropic_client := Some c;
                  _gemini_client := _gemini_client self |} ;;
      ret c
  | Some c => ret c
  end.

(** [LLMClient._get_gemini] *)
Definition _get_gemini : M Ext handle :=
  self ← get_self ;
  match _gemini_client self with
  | None =>
      k1 ← environ_get "GEMINI_API_KEY" ;
      k2 ← environ_get "GOOGLE_API_KEY" ;
      let api_key := py_or k1 k2 in
      match api_key with
      | Some key =>
          if PyStr.truthy key then
            c ← sdk_new (NewGenaiClient key) (new_genai_Client _ sdk key) ;
            set_self {| _openai_client := _openai_client self;
                        _anthropic_client := _anthropic_client self;
                        _gemini_client := Some c |} ;;
            ret c
          else raise ConfigurationError
      | None => raise ConfigurationError
      end
  | Some c => ret c
  end.

(** *** Response extraction (the [return] expressions of the blocking
    adapters) *)

(** [response["message"]["content"]] *)
Definition ollama_text (response : Ollama.Response) : result (option string) :=
  message ← getitem response "message" ;
  getitem message "content".

(** [response.choices[0].message.content] *)
Definition openai_text (response : OpenAI.ChatCompletion) : result (option string) :=
  choices ← subscriptable (OpenAI.choices response) ;
  choice ← first choices ;
  Ok (OpenAI.content (OpenAI.message choice)).

(** [message.content[0].text] *)
Definition anthropic_text (message : Anthropic.Message) : result (option string) :=
  content ← subscriptable (Anthropic.content message) ;
  block ← first content ;
  match block with
  | Anthropic.TextBlock text => Ok (Some text)
  | Anthropic.OtherBlock _ => Raise (AttributeError "text")
  end.

(** [response.text] *)
Definition gemini_text (response : Gemini.GenerateContentResponse)
  : result (option string) :=
  Ok (Gemini.text response).

(** *** Blocking adapters *)

(** [LLMClient._chat_ollama] *)
Definition _chat_ollama (model prompt : string) (system : option string)
    (temperature : float) (max_tokens : Z) : M Ext (option string) :=
  let model_name := PyStr.remove "ollama/" model in
  let messages : list Message := [] in
  let messages :=
    match system with
    | Some sys =>
        if PyStr.truthy sys
        then (messages ++ [{| role := "system"; content := sys |}])%list
        else messages
    | None => messages
    end in
  let messages := (messages ++ [{| role := "user"; content := prompt |}])%list in
  let options : gmap string kwarg :=
    {[ "temperature" := KFloat temperature; "num_predict" := KInt max_tokens ]} in
  response ← sdk_call (OllamaChat model_name messages options false)
                      (ollama_chat _ sdk model_name messages options) ;
  lift (ollama_text response).

(** [LLMClient._chat_openai] *)
Definition _chat_openai (model prompt : string) (system : option string)
    (temperature : float) (max_tokens : Z) (kwargs : gmap string kwarg)
  : M Ext (option string) :=
  client ← _get_openai ;
  let messages : list Message := [] in
  let messages :=
    match system with
    | Some sys =>
        if PyStr.truthy sys
        then (messages ++ [{| role := "system"; content := sys |}])%list
        else messages
    | None => messages
    end in
  let messages := (messages ++ [{| role := "user"; content := prompt |}])%list in
  let create_kwargs : gmap string kwarg :=
    {[ "model" := KStr model; "messages" := KMessages messages;
       "max_tokens" := KInt max_tokens; "temperature" := KFloat temperature ]} in
  let create_kwargs :=
    match kwargs !! "response_format" with
    | Some v =>
        if kw_truthy v then <["response_format" := v]> create_kwargs
        else create_kwargs
    | None => create_kwargs
    end in
  response ← sdk_call (OpenAICreate client create_kwargs)
                      (openai_create _ sdk client create_kwargs) ;
  lift (openai_text response).

(** [LLMClient._chat_anthropic] *)
Definition _chat_anthropic (model prompt : string) (system : option string)
    (temperature : float) (max_tokens : Z) : M Ext (option string) :=
  client ← _get_anthropic ;
  let create_kwargs : gmap string kwarg :=
    {[ "model" := KStr model; "max_tokens" := KInt max_tokens;
       "messages" := KMessages [{| role := "user"; content := prompt |}] ]} in
  let create_kwargs :=
    match system with
    | Some sys =>
        if PyStr.truthy sys then <["system" := KStr sys]> create_kwargs
        else create_kwargs
    | None => create_kwargs
    end in
  let create_kwargs :=
    if PrimFloat.leb temperature 1%float
    then <["temperature" := KFloat temperature]> create_kwargs
    else create_kwargs in
  message ← sdk_call (AnthropicCreate client create_kwargs)
                     (anthropic_create _ sdk client create_kwargs) ;
  lift (anthropic_text message).

(** [LLMClient._chat_gemini] *)
Definition _chat_gemini (model prompt : string) (system : option string)
    (temperature : float) (max_tokens : Z) : M Ext (option string) :=
  client ← _get_gemini ;
  let config :=
    {| Gemini.temperature := temperature;
       Gemini.max_output_tokens := max_tokens;
       Gemini.system_instruction := None |} in
  let config :=
    match system with
    | Some sys =>
        if PyStr.truthy sys
        then {| Gemini.temperature := Gemini.temperature config;
                Gemini.max_output_tokens := Gemini.max_output_tokens config;
                Gemini.system_instruction := Some sys |}
        else config
    | None => config
    end in
  response ← sdk_call (GeminiGenerate client model prompt config)
                      (gemini_generate_content _ sdk client model prompt config) ;
  lift (gemini_text response).

(** [LLMClient.chat] *)
Definition chat (model prompt : string) (system : option string)
    (temperature : float) (max_tokens : Z) (kwargs : gmap string kwarg)
  : M Ext (option string) :=
  let provider := _get_provider model in
  if String.eqb provider "ollama" then
    _chat_ollama model prompt system temperature max_tokens
  else if String.eqb provider "openai" then
    _chat_openai model prompt system temperature max_tokens kwargs
  else if String.eqb provider "anthropic" then
    _chat_anthropic model prompt system temperature max_tokens
  else if String.eqb provider "gemini" then
    _chat_gemini model prompt system temperature max_tokens
  else raise (ValueError ("Unknown provider for model: " ++ model)).

(** *** Streaming adapters *)

(** The loop body of [_stream_ollama]:
    [if chunk.get("message", {}).get("content"): yield chunk["message"]["content"]] *)
Definition ollama_chunk_body (chunk : Ollama.Response) : result (list string) :=
  if opt_truthy (mjoin (default ∅ (chunk !! "message") !! "content")) then
    message ← getitem chunk "message" ;
    text ← getitem message "content" ;
    Ok (option_list text)
  else Ok [].

(** The loop body of [_stream_openai]:
    [if chunk.choices[0].delta.content: yield chunk.choices[0].delta.content] *)
Definition openai_chunk_body (chunk : OpenAI.ChatCompletionChunk)
  : result (list string) :=
  choice ← first (OpenAI.chunk_choices chunk) ;
  if opt_truthy (OpenAI.delta_content (OpenAI.delta choice)) then
    choice' ← first (OpenAI.chunk_choices chunk) ;
    Ok (option_list (OpenAI.delta_content (OpenAI.delta choice')))
  else Ok [].

(** The loop body of [_stream_anthropic]: [yield text] *)
Definition anthropic_chunk_body (text : string) : result (list string) :=
  Ok [text].

(** The loop body of [_stream_gemini]: [if chunk.text: yield chunk.text] *)
Definition gemini_chunk_body (chunk : Gemini.GenerateContentResponse)
  : result (list string) :=
  if opt_truthy (Gemini.text chunk) then Ok (option_list (Gemini.text chunk))
  else Ok [].

(** [LLMClient._stream_ollama] *)
Definition _stream_ollama (model prompt : string) (system : option string)
    (temperature : float) (max_tokens : Z) : G Ext :=
  let model_name := PyStr.remove "ollama/" model in
  let messages : list Message := [] in
  let messages :=
    match system with
    | Some sys =>
        if PyStr.truthy sys
        then (messages ++ [{| role := "system"; content := sys |}])%list
        else messages
    | None => messages
    end in
  let messages := (messages ++ [{| role := "user"; content := prompt |}])%list in
  let options : gmap string kwarg :=
    {[ "temperature" := KFloat temperature; "num_predict" := KInt max_tokens ]} in
  gen_bind (sdk_call (OllamaChat model_name messages options true)
                     (ollama_chat_stream _ sdk model_name messages options))
           (gen_for ollama_chunk_body).

(** [LLMClient._stream_openai] *)
Definition _stream_openai (model prompt : string) (system : option string)
    (temperature : float) (max_tokens : Z) : G Ext :=
  gen_bind _get_openai (fun client =>
  let messages : list Message := [] in
  let messages :=
    match system with
    | Some sys =>
        if PyStr.truthy sys
        then (messages ++ [{| role := "system"; content := sys |}])%list
        else messages
    | None => messages
    end in
  let messages := (messages ++ [{| role := "user"; content := prompt |}])%list in
  let kw : gmap string kwarg :=
    {[ "model" := KStr model; "messages" := KMessages messages;
       "max_tokens" := KInt max_tokens; "temperature" := KFloat temperature;
       "stream" := KBool true ]} in
  gen_bind (sdk_call (OpenAICreate client kw) (openai_create_stream _ sdk client kw))
           (gen_for openai_chunk_body)).

(** [LLMClient._stream_anthropic] *)
Definition _stream_anthropic (model prompt : string) (system : option string)
    (temperature : float) (max_tokens : Z) : G Ext :=
  gen_bind _get_anthropic (fun client =>
  let create_kwargs : gmap string kwarg :=
    {[ "model" := KStr model; "max_tokens" := KInt max_tokens;
       "messages" := KMessages [{| role := "user"; content := prompt |}] ]} in
  let create_kwargs :=
    match system with
    | Some sys =>
        if PyStr.truthy sys then <["system" := KStr sys]> create_kwargs
        else create_kwargs
    | None => create_kwargs
    end in
  let create_kwargs :=
    if PrimFloat.leb temperature 1%float
    then <["temperature" := KFloat temperature]> create_kwargs
    else create_kwargs in
  gen_bind (sdk_call (AnthropicStream client create_kwargs)
                     (anthropic_stream _ sdk client create_kwargs))
           (gen_for anthropic_chunk_body)).

(** [LLMClient._stream_gemini] *)
Definition _stream_gemini (model prompt : string) (system : option string)
    (temperature : float) (max_tokens : Z) : G Ext :=
  gen_bind _get_gemini (fun client =>
  let config :=
    {| Gemini.temperature := temperature;
       Gemini.max_output_tokens := max_tokens;
       Gemini.system_instruction := None |} in
  let config :=
    match system with
    | Some sys =>
        if PyStr.truthy sys
        then {| Gemini.temperature := Gemini.temperature config;
                Gemini.max_output_tokens := Gemini.max_output_tokens config;
                Gemini.system_instruction := Some sys |}
        else config
    | None => config
    end in
  gen_bind (sdk_call (GeminiGenerateStream client model prompt config)
                     (gemini_generate_content_stream _ sdk client model prompt config))
           (gen_for gemini_chunk_body)).

(** [LLMClient.stream], run to exhaustion. *)
Definition stream (model prompt : string) (system : option string)
    (temperature : float) (max_tokens : Z) : G Ext :=
  let provider := _get_provider model in
  if String.eqb provider "ollama" then
    _stream_ollama model prompt system temperature max_tokens
  else if String.eqb provider "openai" then
    _stream_openai model prompt system temperature max_tokens
  else if String.eqb provider "anthropic" then
    _stream_anthropic model prompt system temperature max_tokens
  else if String.eqb provider "gemini" then
    _stream_gemini model prompt system temperature max_tokens
  else gen_bind (raise (A := unit)
                       (ValueError ("Unknown provider for model: " ++ model)))
                (fun _ s => ({| yielded := []; ended := None |}, s)).

(** *** Listing the local models *)

(** [[m["name"] for m in ms]] *)
Fixpoint names_of (ms : list (gmap string string)) : result (list string) :=
  match ms with
  | [] => Ok []
  | m :: rest =>
      name ← getitem m "name" ;
      names ← names_of rest ;
      Ok (name :: names)
  end.

(** [LLMClient.list_ollama_models] *)
Definition list_ollama_models : M Ext (list string) :=
  models ← sdk_call OllamaList (ollama_list _ sdk) ;
  lift (names_of (default [] (models !! "models"))).

End Client.

(** ** The command-line driver *)

(** The newline that [print] appends. *)
Definition nl : string := String (ascii_of_nat 10) EmptyString.

(** ['=' * n] *)
Fixpoint rule (n : nat) : string :=
  match n with O => EmptyString | S k => String "="%char (rule k) end.

(** [c.isspace()] for a code point below 256. *)
Definition is_space (c : ascii) : bool :=
  let n := N_of_ascii c in
  ((9 <=? n) && (n <=? 13) || (28 <=? n) && (n <=? 32) || (n =? 133) || (n =? 160))%N.

Fixpoint lstrip (s : string) : string :=
  match s with
  | EmptyString => EmptyString
  | String c s' => if is_space c then lstrip s' else s
  end.

Fixpoint rstrip (s : string) : string :=
  match s with
  | EmptyString => EmptyString
  | String c s' =>
      match rstrip s' with
      | EmptyString => if is_space c then EmptyString else String c EmptyString
      | r => String c r
      end
  end.

(** [s.strip()] *)
Definition strip (s : string) : string := rstrip (lstrip s).

(** [s.split(sep)] for a one-character separator. *)
Fixpoint split (sep : ascii) (s : string) : list string :=
  match s with
  | EmptyString => [EmptyString]
  | String c s' =>
      if Ascii.eqb c sep then EmptyString :: split sep s'
      else match split sep s' with
           | p :: ps => String c p :: ps
           | [] => [String c EmptyString]
           end
  end.

(** The namespace that [parser.parse_args()] returns; [argparse] fills
    [arg_temperature] with 0.7 and [arg_max_tokens] with 1024 when the
    options are not given. *)
Record Args : Type := {
  arg_model : option string;
  arg_prompt : option string;
  arg_system : option string;
  arg_temperature : float;
  arg_max_tokens : Z;
  arg_stream : bool;
  arg_compare : option string;
  arg_json : bool;
  arg_list_ollama : bool
}.

(** What the process writes, in order. *)
Inductive output : Type :=
| Stdout (text : string)
| Stderr (text : string).

(** How [main] ends: it returns, calls [sys.exit], or dies of an exception
    nobody catches. *)
Inductive status : Type :=
| Returned
| Exit (code : Z)
| Uncaught (e : exn).

Section Driver.
Context {Ext : Type} (sdk : SDK Ext).
(** The text of [parser.print_help()]. *)
Variable help_text : string.

(** What one round of the comparison loop prints before the call. *)
Definition compare_header (model : string) : list output :=
  [ Stdout (nl ++ rule 60 ++ nl);
    Stdout ("Model: " ++ model ++ nl);
    Stdout (rule 60 ++ nl) ].

(** What the [try] statement of the comparison loop prints for the
    outcome of its [client.chat] call. *)
Definition compare_report (r : result (option string)) : output :=
  match r with
  | Ok response => Stdout (opt_str response ++ nl)
  | Raise e => Stderr ("Error: " ++ exn_str e ++ nl)
  end.

(** [for model in models: ...] of the [--compare] branch. *)
Fixpoint compare_loop (args : Args) (prompt : string) (models : list string)
    (s : State Ext) : list output * State Ext :=
  match models with
  | [] => ([], s)
  | model :: rest =>
      let '(r, s1) :=
        chat sdk model prompt (arg_system args) (arg_temperature args)
             (arg_max_tokens args) ∅ s in
      let '(outs, s2) := compare_loop args prompt rest s1 in
      ((compare_header model ++ [compare_report r] ++ outs)%list, s2)
  end.

(** [main], after argument parsing. *)
Definition main (args : Args) (w : World Ext)
  : (list output * status) * State Ext :=
  let s : State Ext := (LLMClient_init, w) in
  if arg_list_ollama args then
    match list_ollama_models sdk s with
    | (Ok models, s') =>
        ((Stdout ("Available Ollama models:" ++ nl)
            :: map (fun m => Stdout ("  - ollama/" ++ m ++ nl)) models,
          Returned), s')
    | (Raise e, s') => (([], Uncaught e), s')
    end
  else if opt_truthy (arg_compare args) then
    if negb (opt_truthy (arg_prompt args)) then
      (([Stderr ("Error: prompt required for comparison" ++ nl)], Exit 1), s)
    else
      let models := map strip (split ","%char (default "" (arg_compare args))) in
      let '(outs, s') :=
        compare_loop args (default "" (arg_prompt args)) models s in
      ((outs, Returned), s')
  else if negb (opt_truthy (arg_model args)) || negb (opt_truthy (arg_prompt args)) then
    (([Stdout help_text], Exit 1), s)
  else
    let model := default "" (arg_model args) in
    let prompt := default "" (arg_prompt args) in
    let kwargs : gmap string kwarg :=
      if arg_json args
      then {[ "response_format" := KDict {[ "type" := "json_object" ]} ]}
      else ∅ in
    if arg_stream args then
      let '(g, s') :=
        stream sdk model prompt (arg_system args) (arg_temperature args)
               (arg_max_tokens args) s in
      match ended g with
      | None => (((map Stdout (yielded g) ++ [Stdout nl])%list, Returned), s')
      | Some e =>
          (((map Stdout (yielded g)
               ++ [Stderr ("Error: " ++ exn_str e ++ nl)])%list, Exit 1), s')
      end
    else
      match chat sdk model prompt (arg_system args) (arg_temperature args)
                 (arg_max_tokens args) kwargs s with
      | (Ok response, s') => (([Stdout (opt_str response ++ nl)], Returned), s')
      | (Raise e, s') => (([Stderr ("Error: " ++ exn_str e ++ nl)], Exit 1), s')
      end.

End Driver.

(** ** Case-insensitive matching, in the words of the specification *)

Module Spec.

(** The identifier's character [c] matches the pattern character [p]: it
    is [p] itself or, for a small letter [p], the capital of [p]. *)
Definition same_letter (c p : ascii) : Prop :=
  c = p \/
  ((97 <= N_of_ascii p)%N /\ (N_of_ascii p <= 122)%N /\
   (N_of_ascii c + 32 = N_of_ascii p)%N).

(** [u] is the pattern [p] up to the case of its letters. *)
Inductive ci_eq : string -> string -> Prop :=
| ci_eq_nil : ci_eq EmptyString EmptyString
| ci_eq_cons c p u v :
    same_letter c p -> ci_eq u v -> ci_eq (String c u) (String p v).

(** The identifier begins with the pattern, whatever the case. *)
Definition begins_with (p s : string) : Prop :=
  exists u r, s = u ++ r /\ ci_eq u p.

(** The identifier contains the pattern, whatever the case. *)
Definition has (p s : string) : Prop :=
  exists l u r, s = l ++ u ++ r /\ ci_eq u p.

(** The rules of the provider identifier, in priority order. *)
Inductive selects (m : string) : string -> Prop :=
| sel_local :
    begins_with "ollama/" m -> selects m "ollama"
| sel_openai :
    ~ begins_with "ollama/" m ->
    has "gpt" m \/ has "o1" m \/ begins_with "ft:" m ->
    selects m "openai"
| sel_anthropic :
    ~ begins_with "ollama/" m ->
    ~ (has "gpt" m \/ has "o1" m \/ begins_with "ft:" m) ->
    has "claude" m ->
    selects m "anthropic"
| sel_gemini :
    ~ begins_with "ollama/" m ->
    ~ (has "gpt" m \/ has "o1" m \/ begins_with "ft:" m) ->
    ~ has "claude" m ->
    has "gemini" m ->
    selects m "gemini"
| sel_fallback :
    ~ begins_with "ollama/" m ->
    ~ (has "gpt" m \/ has "o1" m \/ begins_with "ft:" m) ->
    ~ has "claude" m ->
    ~ has "gemini" m ->
    selects m "ollama".

(** A pattern character that [lower] leaves alone and that no Latin-1
    letter lowers to: an ASCII character that is not a capital. *)
Definition plain_char (p : ascii) : bool :=
  let n := N_of_ascii p in
  ((n <? 128) && negb ((65 <=? n) && (n <=? 90)))%N.

Fixpoint plain (p : string) : bool :=
  match p with
  | EmptyString => true
  | String c p' => plain_char c && plain p'
  end.

End Spec.

(** ** Substrings, for the model-name stripping of the Ollama adapters *)

(** [old] occurs in [s] (case matters). *)
Definition occurs (old s : string) : Prop :=
  exists l r, s = l ++ old ++ r.

(** The number of positions of [s] at which [old] starts. *)
Fixpoint occurrences (old s : string) : nat :=
  (if PyStr.startswith old s then 1 else 0) +
  match s with
  | EmptyString => 0
  | String _ s' => occurrences old s'
  end.

(** [s[n:]] *)
Fixpoint drop_str (n : nat) (s : string) : string :=
  match n, s with
  | S k, String _ s' => drop_str k s'
  | _, _ => s
  end.

(** The calls logged in a state. *)
Definition calls_of {Ext} (s : State Ext) : list call := calls (snd s).

(** ** Calling [chat] and [stream] with arguments left out *)

(** The defaults in the signatures of [chat] and [stream]. *)
Definition DEFAULT_TEMPERATURE : float := 0.7%float.
Definition DEFAULT_MAX_TOKENS : Z := 1024.

(** The names of the parameters of [chat] and of [stream].  [chat] has
    [**kwargs] besides, [stream] has not. *)
Definition parameters : list string :=
  ["self"; "model"; "prompt"; "system"; "temperature"; "max_tokens"].

Definition is_parameter (k : string) : bool :=
  existsb (String.eqb k) parameters.

(** A keyword of a call that names none of the parameters. *)
Definition keyword : Type := { k : string | is_parameter k = false }.

(** The keyword [response_format]. *)
Definition response_format : keyword := exist _ "response_format" eq_refl.

(** The names of the keywords of a call, in the order of the call. *)
Definition names (extra : list (keyword * kwarg)) : list string :=
  map (fun kv => proj1_sig kv.1) extra.

(** The first keyword that a call gives a second time (as a call can,
    with [**] of a dict, for a keyword that it has given already). *)
Fixpoint repeated (seen ks : list string) : option string :=
  match ks with
  | [] => None
  | k :: rest =>
      if existsb (String.eqb k) seen then Some k
      else repeated (k :: seen) rest
  end.

(** The dict [kwargs] that [chat] receives. *)
Definition kwargs_of (extra : list (keyword * kwarg)) : gmap string kwarg :=
  list_to_map (map (fun kv => (proj1_sig kv.1, kv.2)) extra).

Section Calling.
Context {Ext : Type} (sdk : SDK Ext).

(** A call [client.chat(model, prompt, ...)] with the keywords [extra]
    besides those for [system], [temperature] and [max_tokens]: a
    parameter that the caller leaves out ([None]) takes the default of
    the signature, and the other keywords are collected in [**kwargs].  A
    keyword given twice is a [TypeError] at the call. *)
Definition call_chat (model prompt : string) (system : option (option string))
    (temperature : option float) (max_tokens : option Z)
    (extra : list (keyword * kwarg)) : M Ext (option string) :=
  match repeated [] (names extra) with
  | Some k =>
      raise (TypeError ("LLMClient.chat() got multiple values for keyword argument '"
                          ++ k ++ "'"))
  | None =>
      chat sdk model prompt (default None system)
           (default DEFAULT_TEMPERATURE temperature)
           (default DEFAULT_MAX_TOKENS max_tokens) (kwargs_of extra)
  end.

(** A call [client.stream(model, prompt, ...)], likewise: the signature
    has no [**kwargs], so the first keyword that names no parameter is a
    [TypeError] at the call, before the generator exists. *)
Definition call_stream (model prompt : string) (system : option (option string))
    (temperature : option float) (max_tokens : option Z)
    (extra : list (keyword * kwarg)) : G Ext :=
  match repeated [] (names extra), extra with
  | Some k, _ =>
      fun s =>
        ({| yielded := [];
            ended := Some (TypeError
              ("LLMClient.stream() got multiple values for keyword argument '"
                 ++ k ++ "'")) |}, s)
  | None, (k, _) :: _ =>
      fun s =>
        ({| yielded := [];
            ended := Some (TypeError
              ("LLMClient.stream() got an unexpected keyword argument '"
                 ++ proj1_sig k ++ "'")) |}, s)
  | None, [] =>
      stream sdk model prompt (default None system)
             (default DEFAULT_TEMPERATURE temperature)
             (default DEFAULT_MAX_TOKENS max_tokens)
  end.

End Calling.

(** The sampling parameters of a chat request, read under the provider's
    own parameter names; [None] for the calls that are not chat requests. *)
Definition sampling (c : call) : option (option kwarg * option kwarg) :=
  match c with
  | OllamaChat _ _ options _ =>
      Some (options !! "temperature", options !! "num_predict")
  | OpenAICreate _ kw | AnthropicCreate _ kw | AnthropicStream _ kw =>
      Some (kw !! "temperature", kw !! "max_tokens")
  | GeminiGenerate _ _ _ config | GeminiGenerateStream _ _ _ config =>
      Some (Some (KFloat (Gemini.temperature config)),
            Some (KInt (Gemini.max_output_tokens config)))
  | OllamaList | NewOpenAI | NewAnthropic | NewGenaiClient _ => None
  end.

(** ** A canned SDK, for running the client on concrete inputs *)

(** The client whose OpenAI slot holds [h], the others being empty. *)
Definition LLMClient_init_with_openai (h : handle) : LLMClient :=
  {| _openai_client := Some h; _anthropic_client := None; _gemini_client := None |}.

Module Canned.

(** What the canned services do: whether the local backend is up, the
    text in the replies of the chat services ([None]: a reply without
    text), the texts the streams deliver, the models the local backend
    lists. *)
Record Script : Type := {
  local_up : bool;
  answer : option string;
  fragments : list string;
  local_models : list string
}.

Definition usual : Script :=
  {| local_up := true; answer := Some "pong"; fragments := []; local_models := [] |}.
Definition local_down : Script :=
  {| local_up := false; answer := Some "pong"; fragments := []; local_models := [] |}.
Definition streaming (texts : list string) : Script :=
  {| local_up := true; answer := Some "pong"; fragments := texts; local_models := [] |}.
Definition listing (names : list string) : Script :=
  {| local_up := true; answer := Some "pong"; fragments := []; local_models := names |}.

Definition ollama_reply (text : option string) : Ollama.Response :=
  {[ "message" := {[ "content" := text ]} ]}.

Definition openai_reply (text : option string) : OpenAI.ChatCompletion :=
  {| OpenAI.choices :=
       Some [ {| OpenAI.message := {| OpenAI.content := text |} |} ] |}.

Definition openai_chunk (text : option string) : OpenAI.ChatCompletionChunk :=
  {| OpenAI.chunk_choices :=
       [ {| OpenAI.delta := {| OpenAI.delta_content := text |} |} ] |}.

Definition anthropic_reply (text : option string) : Anthropic.Message :=
  {| Anthropic.content :=
       match text with
       | Some t => Some [Anthropic.TextBlock t]
       | None => Some [Anthropic.OtherBlock "tool_use"]
       end |}.

(** The SDKs that follow a script; every constructor succeeds. *)
Definition sdk (sc : Script) : SDK unit :=
  {| ollama_chat := fun _ _ _ e =>
       (if local_up sc then inr (ollama_reply (answer sc))
        else inl "connection refused", e);
     ollama_chat_stream := fun _ _ _ e =>
       (inr {| items := map (fun t => ollama_reply (Some t)) (fragments sc);
               failure := None |}, e);
     ollama_list := fun e =>
       (inr {[ "models" :=
                 map (fun n => ({[ "name" := n ]} : gmap string string))
                     (local_models sc) ]}, e);
     new_OpenAI := fun e => (inr tt, e);
     new_Anthropic := fun e => (inr tt, e);
     new_genai_Client := fun _ e => (inr tt, e);
     openai_create := fun _ _ e => (inr (openai_reply (answer sc)), e);
     openai_create_stream := fun _ _ e =>
       (inr {| items := map (fun t => openai_chunk (Some t)) (fragments sc);
               failure := None |}, e);
     anthropic_create := fun _ _ e => (inr (anthropic_reply (answer sc)), e);
     anthropic_stream := fun _ _ e =>
       (inr {| items := fragments sc; failure := None |}, e);
     gemini_generate_content := fun _ _ _ _ e =>
       (inr {| Gemini.text := answer sc |}, e);
     gemini_generate_content_stream := fun _ _ _ _ e =>
       (inr {| items := map (fun t => {| Gemini.text := Some t |}) (fragments sc);
               failure := None |}, e) |}.

(** A fresh process: the given environment, nothing called yet. *)
Definition world (env : gmap string string) : World unit :=
  {| environ := env; next_id := 0; calls := []; ext := tt |}.

Definition start (env : gmap string string) : State unit :=
  (LLMClient_init, world env).

(** The world once [n] objects were built and [log] was called. *)
Definition world_after (env : gmap string string) (n : nat) (log : list call)
  : World unit :=
  {| environ := env; next_id := n; calls := log; ext := tt |}.

(** The arguments of [--list-ollama]. *)
Definition list_args : Args :=
  {| arg_model := None; arg_prompt := None; arg_system := None;
     arg_temperature := DEFAULT_TEMPERATURE; arg_max_tokens := DEFAULT_MAX_TOKENS;
     arg_stream := false; arg_compare := None; arg_json := false;
     arg_list_ollama := true |}.

End Canned.

(** ** The client registry as a whole *)

(** The providers that have a client handle (Ollama has none: its SDK is a
    module of functions). *)
Inductive cloud : Type := CloudOpenAI | CloudAnthropic | CloudGemini.

(** The cache slot of a provider. *)
Definition cached (p : cloud) (self : LLMClient) : option handle :=
  match p with
  | CloudOpenAI => _openai_client self
  | CloudAnthropic => _anthropic_client self
  | CloudGemini => _gemini_client self
  end.

(** [c] is a call of the SDK constructor of [p]. *)
Definition is_ctor (p : cloud) (c : call) : bool :=
  match p, c with
  | CloudOpenAI, NewOpenAI => true
  | CloudAnthropic, NewAnthropic => true
  | CloudGemini, NewGenaiClient _ => true
  | _, _ => false
  end.

(** How many times the constructor of [p] was called in a log. *)
Fixpoint ctor_count (p : cloud) (l : list call) : nat :=
  match l with
  | [] => 0
  | c :: l' => (if is_ctor p c then 1 else 0) + ctor_count p l'
  end.

(** Neither variable holds a key: each is unset or empty. *)
Definition no_api_key (env : gmap string string) : Prop :=
  opt_truthy (env !! "GEMINI_API_KEY") = false /\
  opt_truthy (env !! "GOOGLE_API_KEY") = false.

(** The same state in another environment. *)
Definition with_environ {Ext} (env : gmap string string) (s : State Ext) : State Ext :=
  (s.1, {| environ := env; next_id := next_id s.2;
           calls := calls s.2; ext := ext s.2 |}).

(** What a user of one client object can do with it. *)
Inductive op : Type :=
| DoChat (model prompt : string) (system : option string)
         (temperature : float) (max_tokens : Z) (kwargs : gmap string kwarg)
| DoStream (model prompt : string) (system : option string)
           (temperature : float) (max_tokens : Z)
| DoList
| DoAcquire (p : cloud).

Section Registry.
Context {Ext : Type} (sdk : SDK Ext).

(** Handle acquisition for a provider. *)
Definition acquire (p : cloud) : M Ext handle :=
  match p with
  | CloudOpenAI => _get_openai sdk
  | CloudAnthropic => _get_anthropic sdk
  | CloudGemini => _get_gemini sdk
  end.

(** The state after one operation, however it ended. *)
Definition step (s : State Ext) (o : op) : State Ext :=
  match o with
  | DoChat model prompt system temperature max_tokens kwargs =>
      (chat sdk model prompt system temperature max_tokens kwargs s).2
  | DoStream model prompt system temperature max_tokens =>
      (stream sdk model prompt system temperature max_tokens s).2
  | DoList => (list_ollama_models sdk s).2
  | DoAcquire p => (acquire p s).2
  end.

(** The state after a sequence of operations on the same client. *)
Definition run (ops : list op) (s : State Ext) : State Ext :=
  foldl step s ops.

End Registry.

(** ** Replies and chunks, in the words of the specification *)

(** The texts that are present and not empty, in order. *)
Definition nonempty_texts (texts : list (option string)) : list string :=
  omap (fun t => match t with
                 | Some s => if PyStr.truthy s then Some s else None
                 | None => None
                 end) texts.

(** The expected text field of a reply or chunk of each provider, when the
    reply has it. *)
Definition ollama_reply_text (r : Ollama.Response) : option string :=
  match r !! "message" with
  | Some message => match message !! "content" with
                    | Some text => text
                    | None => None
                    end
  | None => None
  end.


Definition openai_chunk_text (c : OpenAI.ChatCompletionChunk) : option string :=
  match OpenAI.chunk_choices c with
  | choice :: _ => OpenAI.delta_content (OpenAI.delta choice)
  | [] => None
  end.


Definition gemini_reply_text (r : Gemini.GenerateContentResponse) : option string :=
  Gemini.text r.

(** A streamed OpenAI chunk that has a first choice. *)
Definition has_choice (c : OpenAI.ChatCompletionChunk) : bool :=
  match OpenAI.chunk_choices c with [] => false | _ => true end.

(** The chunks up to the first one for which [ok] fails. *)
Fixpoint take_while {A} (ok : A -> bool) (l : list A) : list A :=
  match l with
  | [] => []
  | x :: l' => if ok x then x :: take_while ok l' else []
  end.


(** ** The comparison runner, in the words of the specification *)

Section Comparison.
Context {Ext : Type} (sdk : SDK Ext).

(** [chat] is invoked once per model, in the order of the list, each call
    starting in the state the previous one left; [rs] pairs each model
    with how its call ended, a response or a failure. *)
Inductive chats_in_order (args : Args) (prompt : string)
  : State Ext -> list string -> list (string * result (option string))
    -> State Ext -> Prop :=
| chats_done s : chats_in_order args prompt s [] [] s
| chats_next s model models r s1 rs s2 :
    chat sdk model prompt (arg_system args) (arg_temperature args)
         (arg_max_tokens args) ∅ s = (r, s1) ->
    chats_in_order args prompt s1 models rs s2 ->
    chats_in_order args prompt s (model :: models) ((model, r) :: rs) s2.

(** What the run shows for one model: its header, then its response on the
    standard output or its failure on the standard error. *)
Definition shown (mr : string * result (option string)) : list output :=
  [ Stdout (nl ++ rule 60 ++ nl);
    Stdout ("Model: " ++ mr.1 ++ nl);
    Stdout (rule 60 ++ nl);
    match mr.2 with
    | Ok response => Stdout (opt_str response ++ nl)
    | Raise e => Stderr ("Error: " ++ exn_str e ++ nl)
    end ].

End Comparison.

(** The arguments of [--compare models prompt], the rest at its default. *)
Definition compare_args (models prompt : string) : Args :=
  {| arg_model := None; arg_prompt := Some prompt; arg_system := None;
     arg_temperature := DEFAULT_TEMPERATURE; arg_max_tokens := DEFAULT_MAX_TOKENS;
     arg_stream := false; arg_compare := Some models; arg_json := false;
     arg_list_ollama := false |}.

(** ** Relations between the states before and after client code *)

Section Footprint.
Context {Ext : Type}.

(** Going from [s] to [s'] keeps a filled cache slot of [p] as it is and
    calls the constructor of [p] no more. *)
Definition keeps (p : cloud) (s s' : State Ext) : Prop :=
  forall h, cached p s.1 = Some h ->
    cached p s'.1 = Some h /\
    ctor_count p (calls_of s') = ctor_count p (calls_of s).

(** Going from [s] to [s'] logs calls that all satisfy [P], and nothing
    else happens to the log. *)
Definition emits (P : call -> Prop) (s s' : State Ext) : Prop :=
  exists new, calls_of s' = (calls_of s ++ new)%list /\ Forall P new.

End Footprint.

(** ** Reading the log of SDK calls *)

(** The provider whose SDK a call goes to. *)
Definition call_provider (c : call) : string :=
  match c with
  | OllamaChat _ _ _ _ | OllamaList => "ollama"
  | NewOpenAI | OpenAICreate _ _ => "openai"
  | NewAnthropic | AnthropicCreate _ _ | AnthropicStream _ _ => "anthropic"
  | NewGenaiClient _ | GeminiGenerate _ _ _ _ | GeminiGenerateStream _ _ _ _ => "gemini"
  end.

(** A chat request, blocking or streaming. *)
Definition is_request (c : call) : bool :=
  match c with
  | OllamaChat _ _ _ _ | OpenAICreate _ _ | AnthropicCreate _ _
  | AnthropicStream _ _ | GeminiGenerate _ _ _ _ | GeminiGenerateStream _ _ _ _ => true
  | OllamaList | NewOpenAI | NewAnthropic | NewGenaiClient _ => false
  end.

(** A call of an SDK constructor. *)
Definition is_constructor (c : call) : bool :=
  match c with
  | NewOpenAI | NewAnthropic | NewGenaiClient _ => true
  | _ => false
  end.

(** How many calls of a log satisfy [f]. *)
Fixpoint count_calls (f : call -> bool) (l : list call) : nat :=
  match l with
  | [] => 0
  | c :: l' => (if f c then 1 else 0) + count_calls f l'
  end.

(** The system instruction that takes effect: an empty one counts as none. *)
Definition effective_system (system : option string) : option string :=
  if opt_truthy system then system else None.

(** The messages of a request whose provider takes the system instruction
    as a message: the system message, when the instruction takes effect,
    and after it the prompt as the one user message. *)
Definition with_system_message (prompt : string) (system : option string)
  : list Message :=
  (match effective_system system with
   | Some sys => [{| role := "system"; content := sys |}]
   | None => []
   end ++ [{| role := "user"; content := prompt |}])%list.

(** A logged call that, if it is a chat request, carries the prompt
    unchanged as its one user message and the system instruction in the
    place its provider has for it: for Ollama and OpenAI a system-role
    message before the prompt, there being no [system] entry; for
    Anthropic the [system] entry and for Gemini the [system_instruction]
    of the configuration, the prompt then being the only message.  An
    instruction that is empty or absent appears in neither place. *)
Definition carries (prompt : string) (system : option string) (c : call) : Prop :=
  match c with
  | OllamaChat _ messages _ _ => messages = with_system_message prompt system
  | OpenAICreate _ kw =>
      kw !! "messages" = Some (KMessages (with_system_message prompt system)) /\
      kw !! "system" = None
  | AnthropicCreate _ kw | AnthropicStream _ kw =>
      kw !! "messages" = Some (KMessages [{| role := "user"; content := prompt |}]) /\
      kw !! "system" = KStr <$> effective_system system
  | GeminiGenerate _ _ contents config | GeminiGenerateStream _ _ contents config =>
      contents = prompt /\
      Gemini.system_instruction config = effective_system system
  | OllamaList | NewOpenAI | NewAnthropic | NewGenaiClient _ => True
  end.

(** The model a chat request names. *)
Definition request_model (c : call) : option string :=
  match c with
  | OllamaChat model _ _ _ => Some model
  | OpenAICreate _ kw | AnthropicCreate _ kw | AnthropicStream _ kw =>
      match kw !! "model" with Some (KStr m) => Some m | _ => None end
  | GeminiGenerate _ model _ _ | GeminiGenerateStream _ model _ _ => Some model
  | OllamaList | NewOpenAI | NewAnthropic | NewGenaiClient _ => None
  end.

(** ** Invariants of the registry *)

(** Every cached handle was handed out before ([< next_id]) and no two
    providers share a handle. *)
Definition registry_ok {Ext} (s : State Ext) : Prop :=
  (forall p h, cached p s.1 = Some h -> h < next_id s.2) /\
  (forall p q h, cached p s.1 = Some h -> cached q s.1 = Some h -> p = q).

(** ** The arguments of the command line *)

(** The run is a usage error: a comparison without a prompt, or a single
    request without a model or without a prompt. *)
Definition usage_error (args : Args) : bool :=
  negb (arg_list_ollama args) &&
  (if opt_truthy (arg_compare args) then negb (opt_truthy (arg_prompt args))
   else negb (opt_truthy (arg_model args)) || negb (opt_truthy (arg_prompt args))).

(** The single request of a run, the one that [main] makes for a model
    and a prompt, succeeds: the stream ends normally, or the chat
    returns. *)
Definition single_request_ok {Ext} (sdk : SDK Ext) (args : Args) (w : World Ext)
  : bool :=
  let model := default "" (arg_model args) in
  let prompt := default "" (arg_prompt args) in
  if arg_stream args then
    match ended (stream sdk model prompt (arg_system args) (arg_temperature args)
                        (arg_max_tokens args) (LLMClient_init, w)).1 with
    | None => true
    | Some _ => false
    end
  else
    is_ok (chat sdk model prompt (arg_system args) (arg_temperature args)
                (arg_max_tokens args)
                (if arg_json args
                 then {[ "response_format" := KDict {[ "type" := "json_object" ]} ]}
                 else ∅)
                (LLMClient_init, w)).1.

(** The same arguments with the [--json] flag set to [b]. *)
Definition with_json (b : bool) (args : Args) : Args :=
  {| arg_model := arg_model args; arg_prompt := arg_prompt args;
     arg_system := arg_system args; arg_temperature := arg_temperature args;
     arg_max_tokens := arg_max_tokens args; arg_stream := arg_stream args;
     arg_compare := arg_compare args; arg_json := b;
     arg_list_ollama := arg_list_ollama args |}.

(** The number of separators in a string. *)
Fixpoint count_char (sep : ascii) (s : string) : nat :=
  match s with
  | EmptyString => 0
  | String c s' => (if Ascii.eqb c sep then 1 else 0) + count_char sep s'
  end.

(** The first and the last character of a string. *)
Definition first_char (s : string) : option ascii :=
  match s with EmptyString => None | String c _ => Some c end.

Fixpoint last_char (s : string) : option ascii :=
  match s with
  | EmptyString => None
  | String c EmptyString => Some c
  | String _ s' => last_char s'
  end.

(** [sep.join(parts)] *)
Fixpoint join (sep : string) (parts : list string) : string :=
  match parts with
  | [] => EmptyString
  | [p] => p
  | p :: rest => p ++ sep ++ join sep rest
  end.

#[global] Instance cloud_eq_dec : EqDecision cloud.
Proof. solve_decision. Defined.

(** The tag of a provider that has a handle. *)
Definition cloud_tag (p : cloud) : string :=
  match p with
  | CloudOpenAI => "openai"
  | CloudAnthropic => "anthropic"
  | CloudGemini => "gemini"
  end.

(** ** The footprint of client code *)

Section Moves.
Context {Ext : Type}.

(** Going from [s] to [s'] leaves the environment alone, hands out object
    identities upwards only, appends to the log calls that all satisfy [P],
    changes the cache slots of the providers in [F] at most, and keeps the
    registry well formed. *)
Definition moves (P : call -> Prop) (F : cloud -> Prop) (s s' : State Ext) : Prop :=
  environ s'.2 = environ s.2 /\
  next_id s.2 <= next_id s'.2 /\
  (exists new, calls_of s' = (calls_of s ++ new)%list /\ Forall P new) /\
  (forall p, F p \/ cached p s'.1 = cached p s.1) /\
  (registry_ok s -> registry_ok s').

(** Client code that, when it raises, raises an error in [E]. *)
Definition fails_only (E : exn -> Prop) {A} (m : M Ext A) : Prop :=
  forall s, match (m s).1 with Raise e => E e | Ok _ => True end.

(** A generator that, when it ends by raising, raises an error in [E]. *)
Definition ends_only (E : exn -> Prop) (g : G Ext) : Prop :=
  forall s, match ended (g s).1 with Some e => E e | None => True end.

(** Going from [s] to [s'] appends to the log at most [k] calls that
    satisfy [f]. *)
Definition logs_at_most (f : call -> bool) (k : nat) (s s' : State Ext) : Prop :=
  exists new, calls_of s' = (calls_of s ++ new)%list /\ count_calls f new <= k.

End Moves.

(** An error that is no [ValueError] of the client's own making, except
    the configuration error on the way to the provider [tag] when that is
    Gemini.  (The errors of the SDKs are [SdkError]s, whatever their
    class.) *)
Definition own_error (tag : string) (e : exn) : Prop :=
  match e with
  | ValueError _ => tag = "gemini" /\ e = ConfigurationError
  | _ => True
  end.

(** The model name a chat request of a provider is to carry for an
    identifier: the identifier itself, without its [ollama/] parts for the
    local provider. *)
Definition dispatched_model (tag model : string) : string :=
  if String.eqb tag "ollama" then PyStr.remove "ollama/" model else model.

(** A logged call that goes to the SDK of the provider [tag] and, if it
    is a chat request, names the model that provider is to see. *)
Definition routed (tag model : string) (c : call) : Prop :=
  call_provider c = tag /\
  (is_request c = true -> request_model c = Some (dispatched_model tag model)).

(** A logged call that, if it is a chat request, carries the token limit
    [n] and the temperature [t] under the provider's parameter names; an
    Anthropic request may leave the temperature out, when it is not at
    most 1.0. *)
Definition passes (t : float) (n : Z) (c : call) : Prop :=
  match sampling c with
  | None => True
  | Some (temp, tokens) =>
      tokens = Some (KInt n) /\
      (temp = Some (KFloat t) \/
       (call_provider c = "anthropic" /\ temp = None /\ PrimFloat.leb t 1 = false))
  end.

(** The extra options of [chat] that take effect: a [response_format] that
    is set, and nothing else. *)
Definition effective_kwargs (kwargs : gmap string kwarg) : gmap string kwarg :=
  match kwargs !! "response_format" with
  | Some v => if kw_truthy v then {[ "response_format" := v ]} else ∅
  | None => ∅
  end.

(** A generator all of whose fragments satisfy [P]. *)
Definition yields_only {Ext} (P : string -> Prop) (g : G Ext) : Prop :=
  forall s, Forall P (yielded (g s).1).

(** A dict of the model list has a name. *)
Definition has_name (m : gmap string string) : bool :=
  match m !! "name" with Some _ => true | None => false end.

(** ** Counting what a client builds and sends *)

(** The number of cache slots that hold a handle. *)
Definition filled (self : LLMClient) : nat :=
  length (option_list (_openai_client self)) +
  length (option_list (_anthropic_client self)) +
  length (option_list (_gemini_client self)).

(** From [s] to [s'] as many object identities were handed out as cache
    slots were filled. *)
Definition balanced {Ext} (s s' : State Ext) : Prop :=
  next_id s'.2 + filled s.1 = next_id s.2 + filled s'.1.

(** The calls that one chat or one stream adds to the log: at most one call
    of a constructor, then at most one chat request; [sent] tells whether
    the request is there. *)
Definition one_request (new : list call) (sent : bool) : Prop :=
  exists cs rs,
    new = (cs ++ rs)%list /\
    length cs <= 1 /\ Forall (fun c => is_constructor c = true) cs /\
    length rs = (if sent then 1 else 0) /\
    Forall (fun c => is_request c = true) rs.

(** ** What a call with the sampling parameters left out sends *)

(** The handle that the requests of a provider go through; the local
    provider has none. *)
Definition handle_of (tag : string) : option cloud :=
  if String.eqb tag "openai" then Some CloudOpenAI
  else if String.eqb tag "anthropic" then Some CloudAnthropic
  else if String.eqb tag "gemini" then Some CloudGemini
  else None.

(** A chat request to the provider [tag] that samples with temperature
    0.7 and 1024 output tokens, under the provider's own parameter
    names. *)
Definition default_request (tag : string) (c : call) : Prop :=
  is_request c = true /\ call_provider c = tag /\
  sampling c = Some (Some (KFloat 0.7%float), Some (KInt 1024)).

(** Going from [s] to [s'], with the error [err] at the end if any, is
    what a chat or a stream with the defaults does for [model]: the handle
    of the provider is acquired, which calls a constructor at most; when
    that fails, its error is the outcome and nothing more is called;
    otherwise -- and always for the local provider, which needs no handle
    -- exactly one chat request follows, to that provider and with the
    defaults. *)
Definition sends_defaults {Ext} (sdk : SDK Ext) (model : string)
    (s s' : State Ext) (err : option exn) : Prop :=
  exists cs,
    length cs <= 1 /\ Forall (fun c => is_constructor c = true) cs /\
    match handle_of (_get_provider model) with
    | Some p =>
        match (acquire sdk p s).1 with
        | Ok _ =>
            exists c, calls_of s' = (calls_of s ++ cs ++ [c])%list /\
                      default_request (_get_provider model) c
        | Raise e => calls_of s' = (calls_of s ++ cs)%list /\ err = Some e
        end
    | None =>
        cs = [] /\
        exists c, calls_of s' = (calls_of s ++ [c])%list /\
                  default_request (_get_provider model) c
    end.

(** The error that a result holds. *)
Definition error_of {A} (r : result A) : option exn :=
  match r with Raise e => Some e | Ok _ => None end.

(** * Properties *)

(** ** Sanity checks of the embedding on concrete inputs *)

Example provider_gpt : _get_provider "GPT-4o" = "openai".
Proof. reflexivity. Qed.
Example provider_mystery : _get_provider "mystery-model" = "ollama".
Proof. reflexivity. Qed.
Example provider_ollama_caps : _get_provider "OLLAMA/Claude" = "ollama".
Proof. reflexivity. Qed.
Example provider_claude : _get_provider "claude-sonnet-4-20250514" = "anthropic".
Proof. reflexivity. Qed.
Example provider_gemini : _get_provider "Gemini-2.0-flash" = "gemini".
Proof. reflexivity. Qed.
Example remove_inner : PyStr.remove "ollama/" "a/ollama/b" = "a/b".
Proof. reflexivity. Qed.
Example remove_once : PyStr.remove "ollama/" "ollaollama/ma/x" = "ollama/x".
Proof. reflexivity. Qed.
Example split_strip_models :
  map strip (split ","%char "gpt-4o, claude-sonnet-4-20250514 ,ollama/llama3")
  = ["gpt-4o"; "claude-sonnet-4-20250514"; "ollama/llama3"].
Proof. reflexivity. Qed.

(** The temperature examples of the specification: 1.5 is left out of the
    Anthropic call, 0.9 goes into it. *)
Example anthropic_temperature_1_5 :
  calls_of (chat (Canned.sdk Canned.usual) "claude-sonnet-4-20250514" "hi" None
                 1.5%float 256 ∅ (Canned.start ∅)).2
  = [ NewAnthropic;
      AnthropicCreate 0
        {[ "model" := KStr "claude-sonnet-4-20250514"; "max_tokens" := KInt 256;
           "messages" := KMessages [{| role := "user"; content := "hi" |}] ]} ].
Proof. vm_compute. reflexivity. Qed.

Example anthropic_temperature_0_9 :
  calls_of (chat (Canned.sdk Canned.usual) "claude-sonnet-4-20250514" "hi"
                 (Some "Be brief.") 0.9%float 256 ∅ (Canned.start ∅)).2
  = [ NewAnthropic;
      AnthropicCreate 0
        {[ "model" := KStr "claude-sonnet-4-20250514"; "max_tokens" := KInt 256;
           "messages" := KMessages [{| role := "user"; content := "hi" |}];
           "system" := KStr "Be brief."; "temperature" := KFloat 0.9%float ]} ].
Proof. vm_compute. reflexivity. Qed.

(** Without a key the Gemini client is not built; with one it is, once. *)
Example gemini_without_key :
  chat (Canned.sdk Canned.usual) "gemini-2.0-flash" "hi" None
       DEFAULT_TEMPERATURE DEFAULT_MAX_TOKENS ∅
       (Canned.start {[ "GEMINI_API_KEY" := "" ]})
  = (Raise ConfigurationError, Canned.start {[ "GEMINI_API_KEY" := "" ]}).
Proof. vm_compute. reflexivity. Qed.

Example gemini_with_google_key :
  (chat (Canned.sdk Canned.usual) "gemini-2.0-flash" "hi" None
        DEFAULT_TEMPERATURE DEFAULT_MAX_TOKENS ∅
        (Canned.start {[ "GOOGLE_API_KEY" := "k" ]})).1
  = Ok (Some "pong").
Proof. vm_compute. reflexivity. Qed.

(** The JSON option of the command line reaches the OpenAI call. *)
Example json_option_forwarded :
  calls_of (call_chat (Canned.sdk Canned.usual) "gpt-4o" "hi" None None None
                      [(response_format, KDict {[ "type" := "json_object" ]})]
                      (Canned.start ∅)).2
  = [ NewOpenAI;
      OpenAICreate 0
        {[ "model" := KStr "gpt-4o";
           "messages" := KMessages [{| role := "user"; content := "hi" |}];
           "max_tokens" := KInt 1024; "temperature" := KFloat 0.7%float;
           "response_format" := KDict {[ "type" := "json_object" ]} ]} ].
Proof. vm_compute. reflexivity. Qed.

(** ** How client code acts on the state *)

Section Effects.
Context {Ext : Type} (sdk : SDK Ext).

Lemma M_bind_unfold {A B} (m : M Ext A) (k : A -> M Ext B) (s : State Ext) :
  (m ≫= k) s
  = match m s with
    | (Ok v, s') => k v s'
    | (Raise e, s') => (Raise e, s')
    end.
Proof. reflexivity. Qed.

Lemma ctor_count_snoc p l c :
  ctor_count p (l ++ [c]) = ctor_count p l + (if is_ctor p c then 1 else 0).
Proof. induction l as [| d l IH]; simpl; [lia | rewrite IH; lia]. Qed.

Lemma keeps_refl p (s : State Ext) : keeps p s s.
Proof. by intros h Hh. Qed.

Lemma keeps_trans p (s1 s2 s3 : State Ext) : keeps p s1 s2 -> keeps p s2 s3 -> keeps p s1 s3.
Proof.
  intros H12 H23 h Hh. destruct (H12 h Hh) as [Hc Hn].
  destruct (H23 h Hc) as [Hc' Hn']. split; [done | congruence].
Qed.

Lemma keeps_bind {A B} p (m : M Ext A) (k : A -> M Ext B) s :
  keeps p s (m s).2 ->
  (forall v s1, keeps p s1 (k v s1).2) ->
  keeps p s ((m ≫= k) s).2.
Proof.
  intros Hm Hk. rewrite M_bind_unfold.
  destruct (m s) as [[v | e] s1]; [| done].
  eapply keeps_trans; [exact Hm | apply Hk].
Qed.

Lemma keeps_gen_bind {A} p (m : M Ext A) (k : A -> G Ext) s :
  keeps p s (m s).2 ->
  (forall v s1, keeps p s1 (k v s1).2) ->
  keeps p s (gen_bind m k s).2.
Proof.
  intros Hm Hk. unfold gen_bind.
  destruct (m s) as [[v | e] s1]; [| done].
  eapply keeps_trans; [exact Hm | apply Hk].
Qed.

Lemma keeps_sdk_call {A} p c (f : Ext -> (string + A) * Ext) s :
  is_ctor p c = false -> keeps p s (sdk_call c f s).2.
Proof.
  intros Hc h Hh. destruct s as [self w]. unfold sdk_call, calls_of.
  destruct (f (ext w)) as [r e']. simpl.
  rewrite ctor_count_snoc, Hc. split; [done | lia].
Qed.

Lemma keeps_lift {A} p (r : result A) (s : State Ext) : keeps p s (lift r s).2.
Proof. apply keeps_refl. Qed.

Lemma keeps_gen_for {A} p body (st : Stream A) (s : State Ext) :
  keeps p s (gen_for body st s).2.
Proof. apply keeps_refl. Qed.

(** A filled slot answers without touching anything. *)
Lemma acquire_cached p (s : State Ext) h :
  cached p s.1 = Some h -> acquire sdk p s = (Ok h, s).
Proof.
  destruct s as [self w]. simpl. intros Hh.
  destruct p; simpl in *;
    unfold _get_openai, _get_anthropic, _get_gemini;
    rewrite M_bind_unfold; simpl; by rewrite Hh.
Qed.

(** A successful acquisition leaves the slot filled with its result. *)
Lemma acquire_fills p (s s1 : State Ext) h :
  acquire sdk p s = (Ok h, s1) -> cached p s1.1 = Some h.
Proof.
  destruct s as [self w].
  destruct p; simpl;
    unfold _get_openai, _get_anthropic, _get_gemini;
    rewrite M_bind_unfold; simpl.
  - destruct (_openai_client self) as [c |] eqn:Hc.
    + intros [= <- <-]. done.
    + rewrite M_bind_unfold. unfold sdk_new.
      destruct (new_OpenAI _ sdk (ext w)) as [[msg | []] e']; [done |].
      intros [= <- <-]. done.
  - destruct (_anthropic_client self) as [c |] eqn:Hc.
    + intros [= <- <-]. done.
    + rewrite M_bind_unfold. unfold sdk_new.
      destruct (new_Anthropic _ sdk (ext w)) as [[msg | []] e']; [done |].
      intros [= <- <-]. done.
  - destruct (_gemini_client self) as [c |] eqn:Hc.
    + intros [= <- <-]. done.
    + repeat (rewrite M_bind_unfold; simpl).
      destruct (py_or _ _) as [key |]; [| done].
      destruct (PyStr.truthy key); [| done].
      rewrite M_bind_unfold. unfold sdk_new.
      destruct (new_genai_Client _ sdk key (ext w)) as [[msg | []] e']; [done |].
      intros [= <- <-]. done.
Qed.

Lemma emits_refl P (s : State Ext) : emits P s s.
Proof. exists []. by rewrite app_nil_r. Qed.

Lemma emits_trans P (s1 s2 s3 : State Ext) : emits P s1 s2 -> emits P s2 s3 -> emits P s1 s3.
Proof.
  intros (n1 & H1 & F1) (n2 & H2 & F2). exists (n1 ++ n2)%list.
  split; [by rewrite H2, H1, app_assoc | by apply Forall_app].
Qed.

Lemma emits_bind {A B} P (m : M Ext A) (k : A -> M Ext B) s :
  emits P s (m s).2 ->
  (forall v s1, emits P s1 (k v s1).2) ->
  emits P s ((m ≫= k) s).2.
Proof.
  intros Hm Hk. rewrite M_bind_unfold.
  destruct (m s) as [[v | e] s1]; [| done].
  eapply emits_trans; [exact Hm | apply Hk].
Qed.

Lemma emits_gen_bind {A} P (m : M Ext A) (k : A -> G Ext) s :
  emits P s (m s).2 ->
  (forall v s1, emits P s1 (k v s1).2) ->
  emits P s (gen_bind m k s).2.
Proof.
  intros Hm Hk. unfold gen_bind.
  destruct (m s) as [[v | e] s1]; [| done].
  eapply emits_trans; [exact Hm | apply Hk].
Qed.

Lemma emits_sdk_call {A} (P : call -> Prop) c (f : Ext -> (string + A) * Ext) s :
  P c -> emits P s (sdk_call c f s).2.
Proof.
  intros Hc. destruct s as [self w]. unfold sdk_call, calls_of.
  destruct (f (ext w)) as [r e']. exists [c]. split; [done | by constructor].
Qed.

Lemma emits_acquire (P : call -> Prop) q (s : State Ext) :
  (forall c, is_ctor q c = true -> P c) ->
  emits P s (acquire sdk q s).2.
Proof.
  intros HP. destruct s as [self w].
  destruct q; simpl;
    unfold _get_openai, _get_anthropic, _get_gemini;
    repeat (rewrite M_bind_unfold; simpl).
  - destruct (_openai_client self) as [c |]; [apply emits_refl |].
    rewrite M_bind_unfold. unfold sdk_new.
    destruct (new_OpenAI _ sdk (ext w)) as [[msg | []] e'];
      (exists [NewOpenAI]; split; [done | constructor; [by apply HP | done]]).
  - destruct (_anthropic_client self) as [c |]; [apply emits_refl |].
    rewrite M_bind_unfold. unfold sdk_new.
    destruct (new_Anthropic _ sdk (ext w)) as [[msg | []] e'];
      (exists [NewAnthropic]; split; [done | constructor; [by apply HP | done]]).
  - destruct (_gemini_client self) as [c |]; [apply emits_refl |].
    repeat (rewrite M_bind_unfold; simpl).
    destruct (py_or _ _) as [key |]; [| apply emits_refl].
    destruct (PyStr.truthy key); [| apply emits_refl].
    rewrite M_bind_unfold. unfold sdk_new.
    destruct (new_genai_Client _ sdk key (ext w)) as [[msg | []] e'];
      (exists [NewGenaiClient key]; split; [done | constructor; [by apply HP | done]]).
Qed.

End Effects.

(** ** Provider identification *)

Section ProviderIdentifier.
Import Spec.

Lemma lower_char_same_letter c p :
  plain_char p = true -> PyStr.lower_char c = p <-> same_letter c p.
Proof.
  unfold plain_char, PyStr.lower_char, same_letter. intros Hp.
  pose proof (N_ascii_bounded c) as Hc.
  pose proof (N_ascii_bounded p) as Hpb.
  apply andb_true_iff in Hp as [Hlt Hnup].
  apply N.ltb_lt in Hlt. apply negb_true_iff in Hnup.
  destruct ((65 <=? N_of_ascii c)%N && (N_of_ascii c <=? 90)%N) eqn:Hup; simpl.
  - apply andb_true_iff in Hup as [H1 H2].
    apply N.leb_le in H1, H2. split.
    + intros <-. right. rewrite N_ascii_embedding by lia. lia.
    + intros [-> | (H3 & H4 & H5)].
      * exfalso. apply andb_false_iff in Hnup as [H | H];
          apply N.leb_gt in H; lia.
      * rewrite H5. apply ascii_N_embedding.
  - destruct ((192 <=? N_of_ascii c)%N && (N_of_ascii c <=? 222)%N
              && negb (N_of_ascii c =? 215)%N) eqn:Hl1.
    + apply andb_true_iff in Hl1 as [Hl1 _].
      apply andb_true_iff in Hl1 as [H1 H2].
      apply N.leb_le in H1, H2. split.
      * intros <-. rewrite N_ascii_embedding in Hlt by lia. lia.
      * intros [-> | (H3 & H4 & H5)]; lia.
    + split; [by left |].
      intros [-> | (H3 & H4 & H5)]; [done |].
      exfalso. apply andb_false_iff in Hup as [H | H];
        apply N.leb_gt in H; lia.
Qed.

Lemma startswith_lower p : forall s,
  plain p = true ->
  PyStr.startswith p (PyStr.lower s) = true <-> begins_with p s.
Proof.
  induction p as [| a p IH]; intros s Hp; simpl.
  - split; [| done]. intros _. exists EmptyString, s. split; [done | constructor].
  - simpl in Hp. apply andb_true_iff in Hp as [Ha Hp].
    destruct s as [| b s]; simpl.
    + split; [done |]. intros (u & r & Hs & Hu). inversion Hu; subst. discriminate.
    + rewrite andb_true_iff, Ascii.eqb_eq, (IH s Hp).
      split.
      * intros [Hab (u & r & -> & Hu)].
        exists (String b u), r. split; [done |].
        constructor; [| done]. apply lower_char_same_letter; [done | ].
        by symmetry.
      * intros (u & r & Hs & Hu). inversion Hu as [| c q u' v Hl Hu']; subst.
        simpl in Hs. injection Hs as -> ->.
        split; [| by exists u', r].
        symmetry. by apply lower_char_same_letter.
Qed.

Lemma begins_with_has p s : begins_with p s -> has p s.
Proof. intros (u & r & -> & Hu). by exists EmptyString, u, r. Qed.

Lemma contains_lower p : forall s,
  plain p = true ->
  PyStr.contains p (PyStr.lower s) = true <-> has p s.
Proof.
  intros s Hp. induction s as [| b s IH].
  - simpl. rewrite orb_false_r.
    change EmptyString with (PyStr.lower EmptyString) at 1.
    rewrite (startswith_lower p _ Hp). split; [apply begins_with_has |].
    intros (l & u & r & Hs & Hu).
    destruct l; [| discriminate]. by exists u, r.
  - cbn [PyStr.lower PyStr.contains].
    change (String (PyStr.lower_char b) (PyStr.lower s))
      with (PyStr.lower (String b s)).
    rewrite orb_true_iff, (startswith_lower p _ Hp), IH. split.
    + intros [H | (l & u & r & -> & Hu)]; [by apply begins_with_has |].
      by exists (String b l), u, r.
    + intros (l & u & r & Hs & Hu). destruct l as [| c l].
      * left. by exists u, r.
      * right. simpl in Hs. injection Hs as -> ->. by exists l, u, r.
Qed.

(** C1.  Provider identification is a total function that follows the
    priority rules of the specification, case-insensitively: for every
    model identifier, the tag that the rules select (local prefix
    [ollama/]; then [gpt], [o1] or the prefix [ft:]; then [claude]; then
    [gemini]; else the local fallback) is the tag [_get_provider]
    returns, and it returns no other.  The function is a total Rocq
    function into tags: it raises for no input. *)
Theorem get_provider_follows_rules (model tag : string) :
  selects model tag <-> _get_provider model = tag.
Proof.
  unfold _get_provider.
  pose proof (startswith_lower "ollama/" model eq_refl) as Ho.
  pose proof (contains_lower "gpt" model eq_refl) as Hg.
  pose proof (contains_lower "o1" model eq_refl) as H1.
  pose proof (startswith_lower "ft:" model eq_refl) as Hf.
  pose proof (contains_lower "claude" model eq_refl) as Hc.
  pose proof (contains_lower "gemini" model eq_refl) as Hm.
  cbv zeta.
  destruct (PyStr.startswith "ollama/" (PyStr.lower model)) eqn:Eo.
  { split; [| intros <-; constructor; by apply Ho].
    destruct 1 as [H | H | H | H | H]; try done; exfalso; by apply H, Ho. }
  assert (~ begins_with "ollama/" model) as No by (rewrite <- Ho; done).
  destruct (PyStr.contains "gpt" (PyStr.lower model)
            || PyStr.contains "o1" (PyStr.lower model)
            || PyStr.startswith "ft:" (PyStr.lower model)) eqn:Ea.
  { assert (has "gpt" model \/ has "o1" model \/ begins_with "ft:" model) as Ya.
    { rewrite <- Hg, <- H1, <- Hf.
      apply orb_true_iff in Ea as [Ea | Ea]; [| tauto].
      apply orb_true_iff in Ea. tauto. }
    split; [| intros <-; by constructor].
    destruct 1; done. }
  assert (~ (has "gpt" model \/ has "o1" model \/ begins_with "ft:" model)) as Na.
  { rewrite <- Hg, <- H1, <- Hf.
    apply orb_false_iff in Ea as [Ea ->].
    apply orb_false_iff in Ea as [-> ->]. intros [? | [? | ?]]; done. }
  destruct (PyStr.contains "claude" (PyStr.lower model)) eqn:Ec.
  { assert (has "claude" model) as Yc by (by apply Hc).
    split; [| intros <-; by constructor].
    destruct 1; done. }
  assert (~ has "claude" model) as Nc by (rewrite <- Hc; done).
  destruct (PyStr.contains "gemini" (PyStr.lower model)) eqn:Em.
  { assert (has "gemini" model) as Ym by (by apply Hm).
    split; [| intros <-; by constructor].
    destruct 1; done. }
  assert (~ has "gemini" model) as Nm by (rewrite <- Hm; done).
  split; [| intros <-; by apply sel_fallback].
  destruct 1; done.
Qed.

End ProviderIdentifier.

(** ** Stripping the local prefix from the model name *)

Section Stripping.

Lemma startswith_app p : forall s,
  PyStr.startswith p s = true <-> exists r, s = p ++ r.
Proof.
  induction p as [| a p IH]; intros s; simpl.
  - split; [by exists s | done].
  - destruct s as [| b s]; [split; [done | by intros [r Hr]] |].
    rewrite andb_true_iff, Ascii.eqb_eq, IH. split.
    + intros [-> [r ->]]. by exists r.
    + intros [r Hr]. injection Hr as -> ->. split; [done | by exists r].
Qed.

Lemma remove_from_skip old : forall s k,
  PyStr.remove_from old k s = PyStr.remove old (drop_str k s).
Proof.
  unfold PyStr.remove.
  induction s as [| c s IH]; intros [| k]; try done.
  simpl. apply IH.
Qed.

Lemma remove_hit r :
  PyStr.remove "ollama/" ("ollama/" ++ r) = PyStr.remove "ollama/" r.
Proof. unfold PyStr.remove. simpl. by rewrite remove_from_skip. Qed.

Lemma remove_miss c s :
  PyStr.startswith "ollama/" (String c s) = false ->
  PyStr.remove "ollama/" (String c s) = String c (PyStr.remove "ollama/" s).
Proof. unfold PyStr.remove. cbn [PyStr.remove_from]. by intros ->. Qed.

Lemma occurrences_hit r :
  occurrences "ollama/" ("ollama/" ++ r) = S (occurrences "ollama/" r).
Proof. reflexivity. Qed.

Lemma remove_length s :
  String.length (PyStr.remove "ollama/" s) + 7 * occurrences "ollama/" s
  = String.length s.
Proof.
  remember (String.length s) as n eqn:Hn. revert s Hn.
  induction n as [n IH] using lt_wf_ind. intros s Hn.
  destruct (PyStr.startswith "ollama/" s) eqn:Hs.
  - apply startswith_app in Hs as [r ->].
    rewrite remove_hit, occurrences_hit.
    simpl in Hn. change (String.append EmptyString r) with r in Hn.
    specialize (IH (String.length r) ltac:(lia) r eq_refl). lia.
  - destruct s as [| c s]; [by subst |].
    rewrite remove_miss by done.
    cbn [occurrences]. rewrite Hs. simpl in Hn. simpl String.length.
    specialize (IH (String.length s) ltac:(lia) s eq_refl). lia.
Qed.

Lemma occurrences_head old s :
  PyStr.startswith old s = true -> 0 < occurrences old s.
Proof. intros H. destruct s; cbn [occurrences]; rewrite H; lia. Qed.

Lemma occurs_occurrences old s : occurs old s <-> 0 < occurrences old s.
Proof.
  split.
  - intros (l & r & ->). induction l as [| c l IH].
    + apply occurrences_head, startswith_app. by exists r.
    + change (String c l ++ old ++ r) with (String c (l ++ old ++ r)).
      cbn [occurrences]. lia.
  - induction s as [| c s IH]; simpl.
    + destruct (PyStr.startswith old EmptyString) eqn:H; [| lia].
      intros _. apply startswith_app in H as [r Hr].
      by exists EmptyString, r.
    + destruct (PyStr.startswith old (String c s)) eqn:H.
      * intros _. apply startswith_app in H as [r Hr].
        by exists EmptyString, r.
      * intros Hpos. destruct IH as (l & r & ->); [simpl in Hpos; lia |].
        by exists (String c l), r.
Qed.

Lemma remove_id s :
  PyStr.remove "ollama/" s = s <-> ~ occurs "ollama/" s.
Proof.
  rewrite occurs_occurrences. split.
  - intros H. pose proof (remove_length s) as HL. rewrite H in HL. lia.
  - intros H. induction s as [| c s IH]; [done |].
    cbn [occurrences] in H.
    destruct (PyStr.startswith "ollama/" (String c s)) eqn:Hs; [lia |].
    rewrite remove_miss by done. f_equal. apply IH. simpl in H. lia.
Qed.

Context {Ext : Type} (sdk : SDK Ext).

Lemma chat_ollama_calls model prompt system temperature max_tokens (s : State Ext) :
  exists messages options,
    calls_of (_chat_ollama sdk model prompt system temperature max_tokens s).2
    = (calls_of s
         ++ [OllamaChat (PyStr.remove "ollama/" model) messages options false])%list.
Proof.
  destruct s as [self w]. unfold _chat_ollama, calls_of.
  eexists _, _. cbv zeta.
  unfold mbind, M_bind, bind, sdk_call, lift.
  destruct (ollama_chat _ sdk _ _ _ (ext w)) as [[msg | response] e']; reflexivity.
Qed.

Lemma stream_ollama_calls model prompt system temperature max_tokens (s : State Ext) :
  exists messages options,
    calls_of (_stream_ollama sdk model prompt system temperature max_tokens s).2
    = (calls_of s
         ++ [OllamaChat (PyStr.remove "ollama/" model) messages options true])%list.
Proof.
  destruct s as [self w]. unfold _stream_ollama, calls_of.
  eexists _, _. cbv zeta.
  unfold gen_bind, sdk_call, gen_for.
  destruct (ollama_chat_stream _ sdk _ _ _ (ext w)) as [[msg | response] e']; reflexivity.
Qed.

(** C9.  The Ollama adapters, blocking and streaming, dispatch the model
    identifier with every occurrence of [ollama/] deleted, not only a
    leading one: the single call each of them logs names the model
    [remove "ollama/" m], whose length is that of [m] less seven
    characters for each position where [ollama/] starts in [m]; and
    prefixing [m] with [ollama/] and stripping gives [m] back exactly when
    [m] contains no [ollama/]. *)
Theorem ollama_model_name_stripped
    (m prompt : string) (system : option string) (temperature : float)
    (max_tokens : Z) (s : State Ext) :
  (exists messages options,
      calls_of (_chat_ollama sdk m prompt system temperature max_tokens s).2
      = (calls_of s
           ++ [OllamaChat (PyStr.remove "ollama/" m) messages options false])%list)
  /\ (exists messages options,
      calls_of (_stream_ollama sdk m prompt system temperature max_tokens s).2
      = (calls_of s
           ++ [OllamaChat (PyStr.remove "ollama/" m) messages options true])%list)
  /\ String.length (PyStr.remove "ollama/" m) + 7 * occurrences "ollama/" m
     = String.length m
  /\ (PyStr.remove "ollama/" ("ollama/" ++ m) = m <-> ~ occurs "ollama/" m).
Proof.
  split; [apply chat_ollama_calls |].
  split; [apply stream_ollama_calls |].
  split; [apply remove_length |].
  rewrite remove_hit. apply remove_id.
Qed.

End Stripping.

(** ** The Anthropic temperature field *)

Section AnthropicTemperature.
Context {Ext : Type} (sdk : SDK Ext).

(** C2.  For every Anthropic request, on the blocking path and on the
    streaming path alike, the outbound call carries the [temperature]
    field exactly when the requested temperature is at most 1.0: there
    is a set of fields, fixed by the model, the prompt, the system
    instruction and the token limit and holding no temperature, such
    that the call is made with these fields plus the temperature when it
    is at most 1.0, and with these fields alone when it is above.  No
    temperature makes the adapter fail: once the client handle is there
    the call is made, and a failure to obtain the handle is the only
    error before it. *)
Theorem anthropic_temperature_field
    (model prompt : string) (system : option string) (max_tokens : Z) :
  exists fields : gmap string kwarg,
    fields !! "temperature" = None /\
    forall (temperature : float) (s : State Ext),
    exists kw : gmap string kwarg,
      (kw !! "temperature" = Some (KFloat temperature)
         <-> PrimFloat.leb temperature 1 = true) /\
      (PrimFloat.leb temperature 1 = true ->
         kw = <["temperature" := KFloat temperature]> fields) /\
      (PrimFloat.leb temperature 1 = false -> kw = fields) /\
      match _get_anthropic sdk s with
      | (Ok client, s1) =>
          calls_of (_chat_anthropic sdk model prompt system temperature
                                    max_tokens s).2
            = (calls_of s1 ++ [AnthropicCreate client kw])%list /\
          calls_of (_stream_anthropic sdk model prompt system temperature
                                      max_tokens s).2
            = (calls_of s1 ++ [AnthropicStream client kw])%list
      | (Raise e, s1) =>
          _chat_anthropic sdk model prompt system temperature max_tokens s
            = (Raise e, s1) /\
          _stream_anthropic sdk model prompt system temperature max_tokens s
            = ({| yielded := []; ended := Some e |}, s1)
      end.
Proof.
  set (base := ({[ "model" := KStr model; "max_tokens" := KInt max_tokens;
                   "messages" := KMessages [{| role := "user"; content := prompt |}] ]}
                : gmap string kwarg)).
  set (fields := match system with
                 | Some sys =>
                     if PyStr.truthy sys then <["system" := KStr sys]> base else base
                 | None => base
                 end).
  assert (fields !! "temperature" = None) as Hnone.
  { subst fields base. destruct system as [sys |]; [destruct (PyStr.truthy sys) |];
      by simplify_map_eq. }
  exists fields. split; [done |].
  intros temperature s.
  exists (if PrimFloat.leb temperature 1
          then <["temperature" := KFloat temperature]> fields else fields).
  split; [| split; [| split]].
  - destruct (PrimFloat.leb temperature 1).
    + by rewrite lookup_insert_eq.
    + rewrite Hnone. split; done.
  - by intros ->.
  - by intros ->.
  - unfold _chat_anthropic, _stream_anthropic, gen_bind.
    rewrite M_bind_unfold.
    destruct (_get_anthropic sdk s) as [[client | e] [self1 w1]]; [| done].
    cbv zeta. fold base. fold fields.
    unfold mbind, M_bind, bind, sdk_call, lift, gen_for, calls_of.
    split.
    + by destruct (anthropic_create _ sdk _ _ (ext w1)) as [[msg | m] e'].
    + by destruct (anthropic_stream _ sdk _ _ (ext w1)) as [[msg | m] e'].
Qed.

End AnthropicTemperature.

(** ** The client registry *)

Section RegistryProperties.
Context {Ext : Type} (sdk : SDK Ext).

Lemma keeps_acquire p q (s : State Ext) : keeps p s (acquire sdk q s).2.
Proof.
  intros h Hh. destruct s as [self w]. unfold calls_of.
  destruct q; simpl;
    unfold _get_openai, _get_anthropic, _get_gemini;
    repeat (rewrite M_bind_unfold; simpl).
  - destruct (_openai_client self) as [c |] eqn:Hc; [done |].
    rewrite M_bind_unfold. unfold sdk_new.
    destruct (new_OpenAI _ sdk (ext w)) as [[msg | []] e']; simpl;
      rewrite ctor_count_snoc;
      destruct p; simpl in *; try congruence; (split; [congruence | lia]).
  - destruct (_anthropic_client self) as [c |] eqn:Hc; [done |].
    rewrite M_bind_unfold. unfold sdk_new.
    destruct (new_Anthropic _ sdk (ext w)) as [[msg | []] e']; simpl;
      rewrite ctor_count_snoc;
      destruct p; simpl in *; try congruence; (split; [congruence | lia]).
  - destruct (_gemini_client self) as [c |] eqn:Hc; [done |].
    repeat (rewrite M_bind_unfold; simpl).
    destruct (py_or _ _) as [key |]; [| done].
    destruct (PyStr.truthy key); [| done].
    rewrite M_bind_unfold. unfold sdk_new.
    destruct (new_genai_Client _ sdk key (ext w)) as [[msg | []] e']; simpl;
      rewrite ctor_count_snoc;
      destruct p; simpl in *; try congruence; (split; [congruence | lia]).
Qed.

Ltac keeps_step :=
  first
    [ apply (keeps_acquire _ CloudOpenAI)
    | apply (keeps_acquire _ CloudAnthropic)
    | apply (keeps_acquire _ CloudGemini)
    | apply keeps_lift
    | apply keeps_gen_for
    | apply keeps_bind
    | apply keeps_gen_bind
    | apply keeps_refl
    | apply keeps_sdk_call; match goal with p : cloud |- _ => by destruct p end
    | intro ].

Lemma keeps_chat p model prompt system temperature max_tokens kwargs (s : State Ext) :
  keeps p s (chat sdk model prompt system temperature max_tokens kwargs s).2.
Proof.
  unfold chat. cbv zeta.
  repeat match goal with |- context [if ?b then _ else _] => destruct b end;
    [ unfold _chat_ollama | unfold _chat_openai | unfold _chat_anthropic
    | unfold _chat_gemini | apply keeps_refl ];
    cbv zeta; repeat keeps_step.
Qed.

Lemma keeps_stream p model prompt system temperature max_tokens (s : State Ext) :
  keeps p s (stream sdk model prompt system temperature max_tokens s).2.
Proof.
  unfold stream. cbv zeta.
  repeat match goal with |- context [if ?b then _ else _] => destruct b end;
    [ unfold _stream_ollama | unfold _stream_openai | unfold _stream_anthropic
    | unfold _stream_gemini | apply keeps_refl ];
    cbv zeta; repeat keeps_step.
Qed.

Lemma keeps_list p (s : State Ext) : keeps p s (list_ollama_models sdk s).2.
Proof. unfold list_ollama_models. repeat keeps_step. Qed.

Lemma keeps_run p ops : forall s : State Ext, keeps p s (run sdk ops s).
Proof.
  unfold run. induction ops as [| o ops IH]; intros s; [apply keeps_refl |].
  simpl. eapply keeps_trans; [| apply IH].
  destruct o; simpl;
    [ apply keeps_chat | apply keeps_stream | apply keeps_list | apply keeps_acquire ].
Qed.

Lemma acquire_ctor_le p (s : State Ext) :
  ctor_count p (calls_of (acquire sdk p s).2) <= S (ctor_count p (calls_of s)).
Proof.
  destruct (cached p s.1) as [h |] eqn:Hh.
  { rewrite (acquire_cached sdk p s h Hh). simpl. lia. }
  destruct s as [self w]. unfold calls_of.
  destruct p; simpl in *;
    unfold _get_openai, _get_anthropic, _get_gemini;
    repeat (rewrite M_bind_unfold; simpl); rewrite Hh.
  - rewrite M_bind_unfold. unfold sdk_new.
    destruct (new_OpenAI _ sdk (ext w)) as [[msg | []] e']; simpl;
      rewrite ctor_count_snoc; simpl; lia.
  - rewrite M_bind_unfold. unfold sdk_new.
    destruct (new_Anthropic _ sdk (ext w)) as [[msg | []] e']; simpl;
      rewrite ctor_count_snoc; simpl; lia.
  - repeat (rewrite M_bind_unfold; simpl).
    destruct (py_or _ _) as [key |]; [| simpl; lia].
    destruct (PyStr.truthy key); [| simpl; lia].
    rewrite M_bind_unfold. unfold sdk_new.
    destruct (new_genai_Client _ sdk key (ext w)) as [[msg | []] e']; simpl;
      rewrite ctor_count_snoc; simpl; lia.
Qed.

(** C6.  For every provider that has a handle, once an acquisition has
    returned a handle, every later acquisition for the same provider on
    that client -- after any sequence of chats, streams, listings and
    acquisitions -- returns the identical handle and leaves the state as
    it is: the cached instance is handed out and the SDK constructor of
    that provider is not called again.  The first acquisition itself
    calls the constructor at most once. *)
Theorem handle_constructed_once
    (p : cloud) (s s1 : State Ext) (h : handle) (ops : list op) :
  acquire sdk p s = (Ok h, s1) ->
  acquire sdk p (run sdk ops s1) = (Ok h, run sdk ops s1) /\
  ctor_count p (calls_of (run sdk ops s1)) = ctor_count p (calls_of s1) /\
  ctor_count p (calls_of s1) <= S (ctor_count p (calls_of s)).
Proof.
  intros Hacq.
  pose proof (acquire_fills sdk p s s1 h Hacq) as Hfill.
  destruct (keeps_run p ops s1 h Hfill) as [Hc Hn].
  split; [by apply acquire_cached |].
  split; [done |].
  pose proof (acquire_ctor_le p s) as Hle. by rewrite Hacq in Hle.
Qed.

Lemma no_key_iff (k1 k2 : option string) :
  match py_or k1 k2 with
  | Some key => PyStr.truthy key = false
  | None => True
  end <-> opt_truthy k1 = false /\ opt_truthy k2 = false.
Proof.
  unfold py_or.
  destruct k1 as [[| c1 a1] |], k2 as [[| c2 a2] |]; simpl; intuition congruence.
Qed.

(** C7.  Acquiring the Gemini handle fails with the configuration error
    exactly when the provider is used for the first time (nothing is
    cached) and the environment holds no API key, under [GEMINI_API_KEY]
    or [GOOGLE_API_KEY]; the failure leaves the whole state, the cache
    included, as it was.  The OpenAI and Anthropic acquisitions never
    look at the environment: in any other environment they behave the
    same, and they never raise the configuration error. *)
Theorem gemini_key_checked_at_first_use (s : State Ext) :
  ((_get_gemini sdk s).1 = Raise ConfigurationError <->
     cached CloudGemini s.1 = None /\ no_api_key (environ s.2))
  /\ ((_get_gemini sdk s).1 = Raise ConfigurationError ->
        (_get_gemini sdk s).2 = s)
  /\ (forall env : gmap string string,
        _get_openai sdk (with_environ env s)
          = ((_get_openai sdk s).1, with_environ env (_get_openai sdk s).2) /\
        _get_anthropic sdk (with_environ env s)
          = ((_get_anthropic sdk s).1, with_environ env (_get_anthropic sdk s).2))
  /\ (_get_openai sdk s).1 <> Raise ConfigurationError
  /\ (_get_anthropic sdk s).1 <> Raise ConfigurationError.
Proof.
  destruct s as [self w]. unfold no_api_key, with_environ.
  split; [| split; [| split; [| split]]].
  - unfold _get_gemini. repeat (rewrite M_bind_unfold; simpl).
    destruct (_gemini_client self) as [c |] eqn:Hc; [simpl; intuition congruence |].
    repeat (rewrite M_bind_unfold; simpl).
    rewrite <- no_key_iff.
    destruct (py_or _ _) as [key |]; [| by simpl].
    destruct (PyStr.truthy key) eqn:Hk; [| by simpl].
    rewrite M_bind_unfold. unfold sdk_new.
    destruct (new_genai_Client _ sdk key (ext w)) as [[msg | []] e']; simpl;
      unfold ConfigurationError; intuition congruence.
  - unfold _get_gemini. repeat (rewrite M_bind_unfold; simpl).
    destruct (_gemini_client self) as [c |] eqn:Hc; [done |].
    repeat (rewrite M_bind_unfold; simpl).
    destruct (py_or _ _) as [key |]; [| done].
    destruct (PyStr.truthy key) eqn:Hk; [| done].
    rewrite M_bind_unfold. unfold sdk_new.
    destruct (new_genai_Client _ sdk key (ext w)) as [[msg | []] e']; done.
  - intros env. unfold _get_openai, _get_anthropic.
    repeat (rewrite M_bind_unfold; simpl).
    split.
    + destruct (_openai_client self) as [c |]; [done |].
      rewrite !M_bind_unfold. unfold sdk_new. simpl.
      by destruct (new_OpenAI _ sdk (ext w)) as [[msg | []] e'].
    + destruct (_anthropic_client self) as [c |]; [done |].
      rewrite !M_bind_unfold. unfold sdk_new. simpl.
      by destruct (new_Anthropic _ sdk (ext w)) as [[msg | []] e'].
  - unfold _get_openai. repeat (rewrite M_bind_unfold; simpl).
    destruct (_openai_client self) as [c |]; [done |].
    rewrite M_bind_unfold. unfold sdk_new.
    by destruct (new_OpenAI _ sdk (ext w)) as [[msg | []] e'].
  - unfold _get_anthropic. repeat (rewrite M_bind_unfold; simpl).
    destruct (_anthropic_client self) as [c |]; [done |].
    rewrite M_bind_unfold. unfold sdk_new.
    by destruct (new_Anthropic _ sdk (ext w)) as [[msg | []] e'].
Qed.

End RegistryProperties.

(** The registry on a canned run: a chat with an OpenAI model builds the
    client; acquiring it afterwards, with other work in between, gives the
    same handle and builds nothing. *)
Lemma handle_constructed_once_witness :
  acquire (Canned.sdk Canned.usual) CloudOpenAI
    (run (Canned.sdk Canned.usual)
         [DoChat "claude-3-haiku" "hi" None 0.7%float 1024 ∅;
          DoAcquire CloudOpenAI; DoList]
         (LLMClient_init_with_openai 0, Canned.world_after ∅ 1 [NewOpenAI]))
  = (Ok 0,
     run (Canned.sdk Canned.usual)
         [DoChat "claude-3-haiku" "hi" None 0.7%float 1024 ∅;
          DoAcquire CloudOpenAI; DoList]
         (LLMClient_init_with_openai 0, Canned.world_after ∅ 1 [NewOpenAI]))
  /\ ctor_count CloudOpenAI
       (calls_of
          (run (Canned.sdk Canned.usual)
               [DoChat "claude-3-haiku" "hi" None 0.7%float 1024 ∅;
                DoAcquire CloudOpenAI; DoList]
               (LLMClient_init_with_openai 0, Canned.world_after ∅ 1 [NewOpenAI])))
     = ctor_count CloudOpenAI
         (calls_of (LLMClient_init_with_openai 0, Canned.world_after ∅ 1 [NewOpenAI]))
  /\ ctor_count CloudOpenAI
       (calls_of (LLMClient_init_with_openai 0, Canned.world_after ∅ 1 [NewOpenAI]))
     <= S (ctor_count CloudOpenAI (calls_of (Canned.start ∅))).
Proof.
  apply (handle_constructed_once (Canned.sdk Canned.usual) CloudOpenAI (Canned.start ∅)).
  reflexivity.
Defined.

(** ** The comparison runner *)

Section Runner.
Context {Ext : Type} (sdk : SDK Ext) (help_text : string).

Lemma compare_loop_cons args prompt model models (s : State Ext) :
  compare_loop sdk args prompt (model :: models) s
  = let r := chat sdk model prompt (arg_system args) (arg_temperature args)
                  (arg_max_tokens args) ∅ s in
    let rest := compare_loop sdk args prompt models r.2 in
    ((shown (model, r.1) ++ rest.1)%list, rest.2).
Proof.
  cbn [compare_loop]. cbv zeta.
  destruct (chat sdk model prompt (arg_system args) (arg_temperature args)
                 (arg_max_tokens args) ∅ s) as [r s1].
  cbn [fst snd].
  destruct (compare_loop sdk args prompt models s1) as [outs s2].
  reflexivity.
Qed.

Lemma compare_loop_runs args prompt models : forall s : State Ext,
  exists rs,
    chats_in_order sdk args prompt s models rs
      (compare_loop sdk args prompt models s).2 /\
    (compare_loop sdk args prompt models s).1 = concat (map shown rs) /\
    map fst rs = models.
Proof.
  induction models as [| model models IH]; intros s.
  - exists []. split; [constructor | done].
  - rewrite compare_loop_cons. cbv zeta.
    destruct (chat sdk model prompt _ _ _ ∅ s) as [r s1] eqn:Hc.
    destruct (IH s1) as (rs & Hrs & Hout & Hm).
    exists ((model, r) :: rs). cbn [fst snd map concat]. split; [| split].
    + by econstructor.
    + by rewrite Hout.
    + by rewrite Hm.
Qed.

(** C5.  For every list of model identifiers, the comparison loop invokes
    [chat] once per model in the order of the list, each call starting
    where the previous one ended, and shows one outcome per model in that
    same order: the response of the model, or, when its call fails, the
    failure, recorded under the header of that model.  A failure of one
    model never ends the loop: the models after it are still called and
    shown, and [main] returns normally from a comparison. *)
Theorem comparison_isolates_failures
    (args : Args) (prompt : string) (models : list string) (s : State Ext) :
  (exists rs,
      chats_in_order sdk args prompt s models rs
        (compare_loop sdk args prompt models s).2 /\
      (compare_loop sdk args prompt models s).1 = concat (map shown rs) /\
      map fst rs = models /\
      length rs = length models)
  /\ (forall before model after,
        models = (before ++ model :: after)%list ->
        exists s1 shown_after,
          (compare_loop sdk args prompt models s).1
          = ((compare_loop sdk args prompt before s).1
               ++ shown (model, (chat sdk model prompt (arg_system args)
                                      (arg_temperature args) (arg_max_tokens args)
                                      ∅ s1).1)
               ++ shown_after)%list /\
          s1 = (compare_loop sdk args prompt before s).2 /\
          shown_after
          = (compare_loop sdk args prompt after
               (chat sdk model prompt (arg_system args) (arg_temperature args)
                     (arg_max_tokens args) ∅ s1).2).1)
  /\ (forall (w : World Ext) (list_of_models : string),
        s = (LLMClient_init, w) ->
        arg_list_ollama args = false ->
        arg_compare args = Some list_of_models ->
        PyStr.truthy list_of_models = true ->
        arg_prompt args = Some prompt ->
        PyStr.truthy prompt = true ->
        models = map strip (split ","%char list_of_models) ->
        main sdk help_text args w
        = (((compare_loop sdk args prompt models s).1, Returned),
           (compare_loop sdk args prompt models s).2)).
Proof.
  split; [| split].
  - destruct (compare_loop_runs args prompt models s) as (rs & H1 & H2 & H3).
    exists rs. repeat split; try done.
    by rewrite <- H3, length_map.
  - intros before model after ->. revert s.
    induction before as [| b before IH]; intros s.
    + eexists _, _. split; [| split; reflexivity].
      cbn [app]. rewrite compare_loop_cons. reflexivity.
    + destruct (IH (chat sdk b prompt (arg_system args) (arg_temperature args)
                        (arg_max_tokens args) ∅ s).2) as (s1 & sa & H1 & -> & ->).
      eexists _, _. split; [| split; reflexivity].
      cbn [app]. rewrite !compare_loop_cons. cbv zeta. cbn [fst snd].
      rewrite H1. by rewrite <- !app_assoc.
  - intros w lm -> Hl Hc Ht Hp Htp ->. unfold main.
    rewrite Hl, Hc, Hp. cbn [opt_truthy default]. rewrite Ht, Htp. cbn [negb].
    unfold id.
    by destruct (compare_loop sdk args prompt (map strip (split ","%char lm))
                   (LLMClient_init, w)) as [outs s'].
Qed.

End Runner.

(** A comparison of an OpenAI model with an unknown one while the local
    backend is down: the first model is answered, the failure of the second
    is recorded, the third is still called and answered. *)
Example comparison_with_failing_model :
  (main (Canned.sdk Canned.local_down) "usage"
        (compare_args "gpt-4o, bad-provider-name ,claude-3-haiku" "What is ML?")
        (Canned.world ∅)).1
  = ((shown ("gpt-4o", Ok (Some "pong"))
        ++ shown ("bad-provider-name", Raise (SdkError "connection refused"))
        ++ shown ("claude-3-haiku", Ok (Some "pong")))%list,
     Returned).
Proof. vm_compute. reflexivity. Qed.

(** ** Streaming adapters *)

Section Streaming.

Lemma ollama_chunk_body_text chunk :
  ollama_chunk_body chunk = Ok (nonempty_texts [ollama_reply_text chunk]).
Proof.
  unfold ollama_chunk_body, ollama_reply_text, nonempty_texts, getitem.
  destruct (chunk !! "message") as [message |] eqn:Hm; rewrite ?Hm; simpl.
  - destruct (message !! "content") as [[text |] |] eqn:Hc; rewrite ?Hc; simpl;
      try done.
    by destruct (PyStr.truthy text) eqn:Ht.
  - by rewrite lookup_empty.
Qed.

Lemma gemini_chunk_body_text chunk :
  gemini_chunk_body chunk = Ok (nonempty_texts [gemini_reply_text chunk]).
Proof.
  unfold gemini_chunk_body, gemini_reply_text, nonempty_texts.
  destruct (Gemini.text chunk) as [text |]; simpl; [| done].
  by destruct (PyStr.truthy text).
Qed.

Lemma openai_chunk_body_text chunk :
  openai_chunk_body chunk
  = if has_choice chunk then Ok (nonempty_texts [openai_chunk_text chunk])
    else Raise IndexError.
Proof.
  unfold openai_chunk_body, openai_chunk_text, has_choice, nonempty_texts.
  destruct (OpenAI.chunk_choices chunk) as [| choice rest]; simpl; [done |].
  destruct (OpenAI.delta_content (OpenAI.delta choice)) as [text |]; simpl; [| done].
  by destruct (PyStr.truthy text).
Qed.

Lemma nonempty_texts_cons t ts :
  nonempty_texts (t :: ts) = (nonempty_texts [t] ++ nonempty_texts ts)%list.
Proof.
  unfold nonempty_texts. simpl.
  destruct t as [s |]; [destruct (PyStr.truthy s) |]; done.
Qed.

(** The loops of the Ollama, Gemini and OpenAI streaming adapters emit
    exactly the non-empty texts of the chunks, in arrival order; the OpenAI
    loop does so up to the first chunk without a choice, where it stops
    with an [IndexError]. *)
Theorem stream_loops_skip_empty_chunks :
  (forall chunks fail,
      for_each ollama_chunk_body chunks fail
      = {| yielded := nonempty_texts (map ollama_reply_text chunks);
           ended := SdkError <$> fail |})
  /\ (forall chunks fail,
      for_each gemini_chunk_body chunks fail
      = {| yielded := nonempty_texts (map gemini_reply_text chunks);
           ended := SdkError <$> fail |})
  /\ (forall chunks fail,
      for_each openai_chunk_body chunks fail
      = {| yielded :=
             nonempty_texts (map openai_chunk_text (take_while has_choice chunks));
           ended := if forallb has_choice chunks then SdkError <$> fail
                    else Some IndexError |}).
Proof.
  split; [| split]; intros chunks fail.
  - induction chunks as [| c chunks IH]; [done |].
    cbn [for_each map]. rewrite ollama_chunk_body_text, IH. cbn [yielded ended].
    by rewrite (nonempty_texts_cons (ollama_reply_text c) (map ollama_reply_text _)).
  - induction chunks as [| c chunks IH]; [done |].
    cbn [for_each map]. rewrite gemini_chunk_body_text, IH. cbn [yielded ended].
    by rewrite (nonempty_texts_cons (gemini_reply_text c) (map gemini_reply_text _)).
  - induction chunks as [| c chunks IH]; [done |].
    cbn [for_each map take_while forallb]. rewrite openai_chunk_body_text.
    destruct (has_choice c); [| done].
    cbn [map andb]. rewrite IH. cbn [yielded ended].
    by rewrite (nonempty_texts_cons (openai_chunk_text c) (map openai_chunk_text _)).
Qed.

(** The loop of the Anthropic streaming adapter emits every text of the
    SDK's text stream as it is, the empty ones too. *)
Lemma anthropic_loop_emits_all texts fail :
  for_each anthropic_chunk_body texts fail
  = {| yielded := texts; ended := SdkError <$> fail |}.
Proof.
  induction texts as [| t texts IH]; [done |].
  cbn [for_each anthropic_chunk_body]. rewrite IH. reflexivity.
Qed.

(** C3, evaluated where it fails.  The text stream of the Anthropic SDK
    delivers ["Hel"], the empty text, ["lo"]: the Anthropic adapter emits
    the empty string, where the Ollama, OpenAI and Gemini adapters skip
    it on the same fragments. *)
Theorem anthropic_stream_emits_empty_fragment :
  yielded (stream (Canned.sdk (Canned.streaming ["Hel"; ""; "lo"])) "claude-3-haiku" "hi"
                  None DEFAULT_TEMPERATURE DEFAULT_MAX_TOKENS (Canned.start ∅)).1
    = ["Hel"; ""; "lo"]
  /\ nonempty_texts [Some "Hel"; Some ""; Some "lo"] = ["Hel"; "lo"]
  /\ yielded (stream (Canned.sdk (Canned.streaming ["Hel"; ""; "lo"])) "ollama/llama3" "hi"
                     None DEFAULT_TEMPERATURE DEFAULT_MAX_TOKENS (Canned.start ∅)).1
    = ["Hel"; "lo"]
  /\ yielded (stream (Canned.sdk (Canned.streaming ["Hel"; ""; "lo"])) "gpt-4o" "hi"
                     None DEFAULT_TEMPERATURE DEFAULT_MAX_TOKENS (Canned.start ∅)).1
    = ["Hel"; "lo"]
  /\ yielded (stream (Canned.sdk (Canned.streaming ["Hel"; ""; "lo"])) "gemini-2.0-flash" "hi"
                     None DEFAULT_TEMPERATURE DEFAULT_MAX_TOKENS
                     (Canned.start {[ "GEMINI_API_KEY" := "k" ]})).1
    = ["Hel"; "lo"].
Proof. vm_compute. repeat split. Qed.

End Streaming.

(** ** Response extraction *)

Section Extraction.



End Extraction.

(** ** Listing the local models *)

Section Listing.
Context {Ext : Type} (sdk : SDK Ext) (help_text : string).

Lemma prefixed_routes_to_ollama name :
  _get_provider ("ollama/" ++ name) = "ollama".
Proof. reflexivity. Qed.

Lemma names_of_spec ms : forall names,
  names_of ms = Ok names <-> Forall2 (fun m n => m !! "name" = Some n) ms names.
Proof.
  induction ms as [| m ms IH]; intros names; simpl.
  - split.
    + intros [= <-]. constructor.
    + intros H. by inversion H.
  - unfold getitem. destruct (m !! "name") as [n |] eqn:Hn; simpl.
    + destruct (names_of ms) as [ns | e] eqn:Hns; simpl.
      * split.
        -- intros [= <-]. constructor; [done | by apply IH].
        -- intros H. inversion H as [| ? n' ? ns' Hn' Hrest]; subst.
           rewrite Hn in Hn'. injection Hn' as <-.
           apply IH in Hrest. by injection Hrest as <-.
      * split; [done |].
        intros H. inversion H as [| ? n' ? ns' Hn' Hrest]; subst.
        by apply IH in Hrest.
    + split; [done |].
      intros H. inversion H as [| ? n' ? ns' Hn' Hrest]; subst. congruence.
Qed.

(** C8, as stated, fails: [list_ollama_models] returns the names of the
    local backend as they are, without the prefix, and a local model
    called [gpt-oss:20b] is then an identifier that routes to OpenAI. *)
Lemma listed_names_are_not_prefixed :
  (list_ollama_models (Canned.sdk (Canned.listing ["llama3"; "gpt-oss:20b"]))
                      (Canned.start ∅)).1
    = Ok ["llama3"; "gpt-oss:20b"]
  /\ PyStr.startswith "ollama/" "gpt-oss:20b" = false
  /\ _get_provider "gpt-oss:20b" = "openai".
Proof. vm_compute. repeat split. Qed.

(** C8, amended.  [list_ollama_models] returns the names in the model
    list of the local backend as they are; it is the [--list-ollama]
    branch of [main] that puts the prefix [ollama/] before each name when
    it shows the list, one line per name in the order of the backend, and
    every identifier it shows routes back to Ollama. *)
Theorem listing_prefixed_when_shown (args : Args) (w : World Ext) :
  arg_list_ollama args = true ->
  match ollama_list _ sdk (ext w) with
  | (inl msg, _) =>
      (main sdk help_text args w).1 = ([], Uncaught (SdkError msg))
  | (inr listing, _) =>
      match names_of (default [] (listing !! "models")) with
      | Raise e => (main sdk help_text args w).1 = ([], Uncaught e)
      | Ok names =>
          Forall2 (fun m n => m !! "name" = Some n)
                  (default [] (listing !! "models")) names
          /\ (list_ollama_models sdk (LLMClient_init, w)).1 = Ok names
          /\ (main sdk help_text args w).1
             = (Stdout ("Available Ollama models:" ++ nl)
                  :: map (fun n => Stdout ("  - " ++ ("ollama/" ++ n) ++ nl)) names,
                Returned)
          /\ Forall (fun n => _get_provider ("ollama/" ++ n) = "ollama") names
      end
  end.
Proof.
  intros Hl. unfold main. rewrite Hl.
  unfold list_ollama_models. rewrite M_bind_unfold.
  unfold sdk_call, lift.
  destruct (ollama_list _ sdk (ext w)) as [[msg | listing] e']; [done |].
  cbn [fst snd].
  destruct (names_of (default [] (listing !! "models"))) as [names | e] eqn:Hn;
    [| done].
  split; [by apply names_of_spec |].
  split; [done |]. split; [done |].
  apply Forall_forall. intros n _. apply prefixed_routes_to_ollama.
Qed.

End Listing.

(** The listing on a canned run: two local models, shown with the prefix,
    both routed back to Ollama. *)
Lemma listing_prefixed_when_shown_witness :
  arg_list_ollama Canned.list_args = true
  /\ (main (Canned.sdk (Canned.listing ["llama3"; "gpt-oss:20b"])) "usage"
           Canned.list_args (Canned.world ∅)).1
     = ([ Stdout ("Available Ollama models:" ++ nl);
          Stdout ("  - ollama/llama3" ++ nl);
          Stdout ("  - ollama/gpt-oss:20b" ++ nl) ],
        Returned)
  /\ Forall (fun n => _get_provider ("ollama/" ++ n) = "ollama")
            ["llama3"; "gpt-oss:20b"].
Proof.
  split; [reflexivity |].
  pose proof (listing_prefixed_when_shown
                (Canned.sdk (Canned.listing ["llama3"; "gpt-oss:20b"])) "usage"
                Canned.list_args (Canned.world ∅) eq_refl) as H.
  vm_compute in H. destruct H as (_ & _ & Hmain & Hroute).
  split; [vm_compute; exact Hmain | vm_compute; exact Hroute].
Defined.

(** ** Footprints: how the pieces of client code compose *)

Ltac split_moves := unfold moves; split; [| split; [| split; [| split]]].

Section MovesLemmas.
Context {Ext : Type} (sdk : SDK Ext).

Lemma moves_refl P F (s : State Ext) : moves P F s s.
Proof.
  split_moves;
    [ done | done | exists []; by rewrite app_nil_r | intros p; by right | done ].
Qed.

Lemma moves_trans P F (s1 s2 s3 : State Ext) :
  moves P F s1 s2 -> moves P F s2 s3 -> moves P F s1 s3.
Proof.
  intros (He1 & Hn1 & (n1 & Hc1 & Hf1) & Hs1 & Hr1)
         (He2 & Hn2 & (n2 & Hc2 & Hf2) & Hs2 & Hr2).
  split_moves.
  - congruence.
  - lia.
  - exists (n1 ++ n2)%list. split; [by rewrite Hc2, Hc1, app_assoc | by apply Forall_app].
  - intros p. destruct (Hs1 p) as [? | H1]; [by left |].
    destruct (Hs2 p) as [? | H2]; [by left |]. right. congruence.
  - intros H. apply Hr2, Hr1, H.
Qed.

Lemma moves_bind {A B} P F (m : M Ext A) (k : A -> M Ext B) s :
  moves P F s (m s).2 ->
  (forall v s1, moves P F s1 (k v s1).2) ->
  moves P F s ((m ≫= k) s).2.
Proof.
  intros Hm Hk. rewrite M_bind_unfold.
  destruct (m s) as [[v | e] s1]; [| done].
  eapply moves_trans; [exact Hm | apply Hk].
Qed.

Lemma moves_gen_bind {A} P F (m : M Ext A) (k : A -> G Ext) s :
  moves P F s (m s).2 ->
  (forall v s1, moves P F s1 (k v s1).2) ->
  moves P F s (gen_bind m k s).2.
Proof.
  intros Hm Hk. unfold gen_bind.
  destruct (m s) as [[v | e] s1]; [| done].
  eapply moves_trans; [exact Hm | apply Hk].
Qed.

Lemma registry_ok_frame (self : LLMClient) (w w' : World Ext) :
  next_id w <= next_id w' -> registry_ok (self, w) -> registry_ok (self, w').
Proof.
  intros Hn [Hlt Hinj]. split; [| done].
  intros p h Hh. specialize (Hlt p h Hh). simpl in *. lia.
Qed.

Lemma moves_sdk_call {A} (P : call -> Prop) F c (f : Ext -> (string + A) * Ext) s :
  P c -> moves P F s (sdk_call c f s).2.
Proof.
  intros Hc. destruct s as [self w]. unfold sdk_call.
  destruct (f (ext w)) as [r e'].
  split_moves;
    [ done | done | exists [c]; split; [done | by constructor]
    | intros p; by right | by apply registry_ok_frame ].
Qed.

(** Filling the empty slot of [q] with the next fresh identity. *)
Lemma registry_ok_fill q (self self' : LLMClient) (w w' : World Ext) :
  cached q self = None ->
  cached q self' = Some (next_id w) ->
  (forall p, p <> q -> cached p self' = cached p self) ->
  next_id w' = S (next_id w) ->
  registry_ok (self, w) -> registry_ok (self', w').
Proof.
  intros Hnone Hsome Hother Hn [Hlt Hinj]. simpl in *. split; simpl.
  - intros p h Hh. rewrite Hn. destruct (decide (p = q)) as [-> | Hne].
    + rewrite Hsome in Hh. injection Hh as <-. lia.
    + rewrite (Hother p Hne) in Hh. specialize (Hlt p h Hh). lia.
  - intros p p' h Hp Hp'.
    destruct (decide (p = q)) as [-> | Hne], (decide (p' = q)) as [-> | Hne'];
      try done.
    + rewrite Hsome in Hp. injection Hp as <-.
      rewrite (Hother p' Hne') in Hp'. specialize (Hlt p' _ Hp'). lia.
    + rewrite Hsome in Hp'. injection Hp' as <-.
      rewrite (Hother p Hne) in Hp. specialize (Hlt p _ Hp). lia.
    + rewrite (Hother p Hne) in Hp. rewrite (Hother p' Hne') in Hp'.
      by apply (Hinj p p' h).
Qed.

Lemma moves_acquire (P : call -> Prop) (F : cloud -> Prop) q (s : State Ext) :
  (forall c, is_ctor q c = true -> P c) ->
  F q ->
  moves P F s (acquire sdk q s).2.
Proof.
  intros HP HF.
  destruct (cached q s.1) as [h |] eqn:Hq.
  { rewrite (acquire_cached sdk q s h Hq). apply moves_refl. }
  assert (forall c (self' : LLMClient) (e' : Ext) (b : bool),
             is_ctor q c = true ->
             (b = true ->
                cached q self' = Some (next_id s.2) /\
                forall p, p <> q -> cached p self' = cached p s.1) ->
             (b = false -> self' = s.1) ->
             moves P F s
               (self', {| environ := environ s.2;
                          next_id := if b then S (next_id s.2) else next_id s.2;
                          calls := (calls s.2 ++ [c])%list; ext := e' |})) as Hgen.
  { intros c self' e' b Hc Htrue Hfalse. split_moves; simpl.
    - done.
    - destruct b; lia.
    - exists [c]. split; [done | constructor; [by apply HP | done]].
    - intros p. destruct (decide (p = q)) as [-> | Hne]; [by left |]. right.
      destruct b; [by apply Htrue | by rewrite Hfalse].
    - destruct b.
      + destruct (Htrue eq_refl) as [Hs Ho]. intros Hok.
        destruct s as [self w]. by eapply (registry_ok_fill q self self' w).
      + rewrite (Hfalse eq_refl). destruct s as [self w].
        by apply registry_ok_frame. }
  destruct s as [self w]. simpl in Hq, Hgen.
  destruct q; simpl in *;
    unfold _get_openai, _get_anthropic, _get_gemini;
    repeat (rewrite M_bind_unfold; simpl); rewrite Hq.
  - rewrite M_bind_unfold. unfold sdk_new.
    destruct (new_OpenAI _ sdk (ext w)) as [[msg | []] e'].
    + by apply (Hgen NewOpenAI self e' false).
    + apply (Hgen NewOpenAI _ e' true); [done | | done].
      intros _. split; [done |]. by intros [].
  - rewrite M_bind_unfold. unfold sdk_new.
    destruct (new_Anthropic _ sdk (ext w)) as [[msg | []] e'].
    + by apply (Hgen NewAnthropic self e' false).
    + apply (Hgen NewAnthropic _ e' true); [done | | done].
      intros _. split; [done |]. by intros [].
  - repeat (rewrite M_bind_unfold; simpl).
    destruct (py_or _ _) as [key |]; [| apply moves_refl].
    destruct (PyStr.truthy key); [| apply moves_refl].
    rewrite M_bind_unfold. unfold sdk_new.
    destruct (new_genai_Client _ sdk key (ext w)) as [[msg | []] e'].
    + by apply (Hgen (NewGenaiClient key) self e' false).
    + apply (Hgen (NewGenaiClient key) _ e' true); [done | | done].
      intros _. split; [done |]. by intros [].
Qed.

End MovesLemmas.

(** ** What [chat] and [stream] send *)

Ltac moves_step :=
  cbv beta zeta;
  lazymatch goal with
  | |- moves _ _ _ (_get_openai _ _).2 => apply (moves_acquire _ _ _ CloudOpenAI)
  | |- moves _ _ _ (_get_anthropic _ _).2 => apply (moves_acquire _ _ _ CloudAnthropic)
  | |- moves _ _ _ (_get_gemini _ _).2 => apply (moves_acquire _ _ _ CloudGemini)
  | |- moves _ _ _ (lift _ _).2 => apply moves_refl
  | |- moves _ _ _ (gen_for _ _ _).2 => apply moves_refl
  | |- moves _ _ _ (sdk_call _ _ _).2 => apply moves_sdk_call
  | |- moves _ _ _ ((_ ≫= _) _).2 => apply moves_bind
  | |- moves _ _ _ (gen_bind _ _ _).2 => apply moves_gen_bind
  | |- forall _, _ => intro
  end.

(** Case analysis on the dispatch of [chat] and [stream], with the tag of
    the provider known in each branch. *)
Ltac by_provider model :=
  let N1 := fresh "N" in
  let N2 := fresh "N" in
  let N3 := fresh "N" in
  let N4 := fresh "N" in
  cbv zeta;
  destruct (String.eqb (_get_provider model) "ollama") eqn:E;
  [ apply String.eqb_eq in E
  | rename E into N1; destruct (String.eqb (_get_provider model) "openai") eqn:E;
    [ apply String.eqb_eq in E
    | rename E into N2;
      destruct (String.eqb (_get_provider model) "anthropic") eqn:E;
      [ apply String.eqb_eq in E
      | rename E into N3;
        destruct (String.eqb (_get_provider model) "gemini") eqn:E;
        [ apply String.eqb_eq in E | rename E into N4 ] ] ] ].

Section ChatRequests.
Context {Ext : Type} (sdk : SDK Ext).

Lemma get_provider_tags model :
  _get_provider model = "ollama" \/ _get_provider model = "openai" \/
  _get_provider model = "anthropic" \/ _get_provider model = "gemini".
Proof.
  unfold _get_provider. cbv zeta.
  repeat match goal with |- context [if ?b then _ else _] => destruct b end; tauto.
Qed.

(** [chat] and [stream] call the SDK of the provider that the model
    identifier selects and no other -- its constructor and its chat
    service, under the model name as given (for the local provider: with
    the [ollama/] parts removed) -- and they change the cache slot of that
    provider at most; the environment stays as it is and the registry
    well formed. *)
Theorem requests_follow_provider
    (model prompt : string) (system : option string) (temperature : float)
    (max_tokens : Z) (kwargs : gmap string kwarg) (s : State Ext) :
  moves (routed (_get_provider model) model)
        (fun p => cloud_tag p = _get_provider model) s
        (chat sdk model prompt system temperature max_tokens kwargs s).2
  /\ moves (routed (_get_provider model) model)
           (fun p => cloud_tag p = _get_provider model) s
           (stream sdk model prompt system temperature max_tokens s).2.
Proof.
  split.
  - unfold chat. by_provider model; try rewrite E;
      [ unfold _chat_ollama | unfold _chat_openai | unfold _chat_anthropic
      | unfold _chat_gemini | apply moves_refl ];
      cbv zeta; repeat moves_step;
      try done;
      try (match goal with c : call |- _ => destruct c end;
           try discriminate; by split);
      (split; [done | intros _; unfold request_model, dispatched_model;
                      repeat case_match; by simplify_map_eq]).
  - unfold stream. by_provider model; try rewrite E;
      [ unfold _stream_ollama | unfold _stream_openai | unfold _stream_anthropic
      | unfold _stream_gemini | apply moves_refl ];
      cbv zeta; repeat moves_step;
      try done;
      try (match goal with c : call |- _ => destruct c end;
           try discriminate; by split);
      (split; [done | intros _; unfold request_model, dispatched_model;
                      repeat case_match; by simplify_map_eq]).
Qed.

Lemma ctor_carries prompt system q c : is_ctor q c = true -> carries prompt system c.
Proof. destruct q, c; try discriminate; done. Qed.

Lemma ctor_no_sampling q c : is_ctor q c = true -> sampling c = None.
Proof. destruct q, c; try discriminate; done. Qed.

Ltac solve_carries system :=
  first
    [ by (match goal with H : is_ctor _ _ = true |- _ =>
            apply (ctor_carries _ _ _ _ H) end)
    | unfold carries, with_system_message, effective_system;
      destruct system as [[| ? ?] |]; simpl;
      repeat case_match; simplify_map_eq; done ].

(** Every chat request of [chat] and [stream] carries the prompt, unchanged,
    as its one user message, and the system instruction apart from it, in
    the place its provider has for it: as a system-role message before
    the prompt for Ollama and OpenAI, in the [system] field for Anthropic
    and in the [system_instruction] of the configuration for Gemini, once
    when it is not empty and not at all when it is empty or absent.  The
    request holds no other message. *)
Theorem prompt_and_system_carried
    (model prompt : string) (system : option string) (temperature : float)
    (max_tokens : Z) (kwargs : gmap string kwarg) (s : State Ext) :
  emits (carries prompt system) s
        (chat sdk model prompt system temperature max_tokens kwargs s).2
  /\ emits (carries prompt system) s
           (stream sdk model prompt system temperature max_tokens s).2.
Proof.
  split.
  - refine (proj1 (proj2 (proj2 (_ : moves (carries prompt system) (fun _ => True) s _)))).
    unfold chat. by_provider model;
      [ unfold _chat_ollama | unfold _chat_openai | unfold _chat_anthropic
      | unfold _chat_gemini | apply moves_refl ];
      cbv zeta; repeat moves_step; try done; solve_carries system.
  - refine (proj1 (proj2 (proj2 (_ : moves (carries prompt system) (fun _ => True) s _)))).
    unfold stream. by_provider model;
      [ unfold _stream_ollama | unfold _stream_openai | unfold _stream_anthropic
      | unfold _stream_gemini | apply moves_refl ];
      cbv zeta; repeat moves_step; try done; solve_carries system.
Qed.

Ltac solve_passes :=
  first
    [ by (unfold passes; match goal with H : is_ctor _ _ = true |- _ =>
            rewrite (ctor_no_sampling _ _ H) end)
    | unfold passes, sampling; simpl;
      repeat case_match; simplify_map_eq;
      (split; [done | first [by left | right; by repeat split]]) ].

(** Every chat request of [chat] and [stream] carries the token limit it
    was given, under the provider's own parameter name, and the
    temperature it was given, whatever its value; only an Anthropic
    request leaves the temperature out, and only when it is not at most
    1.0. *)
Theorem sampling_passed_through
    (model prompt : string) (system : option string) (temperature : float)
    (max_tokens : Z) (kwargs : gmap string kwarg) (s : State Ext) :
  emits (passes temperature max_tokens) s
        (chat sdk model prompt system temperature max_tokens kwargs s).2
  /\ emits (passes temperature max_tokens) s
           (stream sdk model prompt system temperature max_tokens s).2.
Proof.
  split.
  - refine (proj1 (proj2 (proj2 (_ : moves (passes temperature max_tokens)
                                           (fun _ => True) s _)))).
    unfold chat. by_provider model;
      [ unfold _chat_ollama | unfold _chat_openai | unfold _chat_anthropic
      | unfold _chat_gemini | apply moves_refl ];
      cbv zeta; destruct (PrimFloat.leb temperature 1) eqn:Ht;
      repeat moves_step; try done; solve_passes.
  - refine (proj1 (proj2 (proj2 (_ : moves (passes temperature max_tokens)
                                           (fun _ => True) s _)))).
    unfold stream. by_provider model;
      [ unfold _stream_ollama | unfold _stream_openai | unfold _stream_anthropic
      | unfold _stream_gemini | apply moves_refl ];
      cbv zeta; destruct (PrimFloat.leb temperature 1) eqn:Ht;
      repeat moves_step; try done; solve_passes.
Qed.

End ChatRequests.

(** ** The errors of [chat] and [stream] *)

Section Errors.
Context {Ext : Type} (sdk : SDK Ext).

Lemma fails_only_bind {A B} E (m : M Ext A) (k : A -> M Ext B) :
  fails_only E m -> (forall v, fails_only E (k v)) -> fails_only E (m ≫= k).
Proof.
  intros Hm Hk s. rewrite M_bind_unfold. specialize (Hm s).
  destruct (m s) as [[v | e] s1]; [apply Hk | done].
Qed.

Lemma fails_only_lift {A} (E : exn -> Prop) (r : result A) :
  match r with Raise e => E e | Ok _ => True end -> fails_only (Ext := Ext) E (lift r).
Proof. by intros Hr s. Qed.

Lemma fails_only_sdk_call {A} (E : exn -> Prop) c (f : Ext -> (string + A) * Ext) :
  (forall msg, E (SdkError msg)) -> fails_only E (sdk_call c f).
Proof.
  intros HE [self w]. unfold sdk_call.
  destruct (f (ext w)) as [[msg | a] e']; [apply HE | done].
Qed.

Lemma fails_only_acquire (E : exn -> Prop) q :
  (forall msg, E (SdkError msg)) ->
  (q = CloudGemini -> E ConfigurationError) ->
  fails_only E (acquire sdk q).
Proof.
  intros HE HG [self w].
  destruct q; simpl;
    unfold _get_openai, _get_anthropic, _get_gemini;
    repeat (rewrite M_bind_unfold; simpl).
  - destruct (_openai_client self) as [c |]; [done |].
    rewrite M_bind_unfold. unfold sdk_new.
    destruct (new_OpenAI _ sdk (ext w)) as [[msg | []] e']; [apply HE | done].
  - destruct (_anthropic_client self) as [c |]; [done |].
    rewrite M_bind_unfold. unfold sdk_new.
    destruct (new_Anthropic _ sdk (ext w)) as [[msg | []] e']; [apply HE | done].
  - destruct (_gemini_client self) as [c |]; [done |].
    repeat (rewrite M_bind_unfold; simpl).
    destruct (py_or _ _) as [key |]; [| by apply HG].
    destruct (PyStr.truthy key); [| by apply HG].
    rewrite M_bind_unfold. unfold sdk_new.
    destruct (new_genai_Client _ sdk key (ext w)) as [[msg | []] e']; [apply HE | done].
Qed.

Lemma ends_only_gen_bind {A} E (m : M Ext A) (k : A -> G Ext) :
  fails_only E m -> (forall v, ends_only E (k v)) -> ends_only E (gen_bind m k).
Proof.
  intros Hm Hk s. unfold gen_bind. specialize (Hm s).
  destruct (m s) as [[v | e] s1]; [apply Hk | done].
Qed.

Lemma for_each_ended {A} (E : exn -> Prop) (body : A -> result (list string))
    xs fail :
  (forall x, match body x with Raise e => E e | Ok _ => True end) ->
  (forall msg, E (SdkError msg)) ->
  match ended (for_each body xs fail) with Some e => E e | None => True end.
Proof.
  intros Hb HE. induction xs as [| x xs IH]; simpl.
  - destruct fail; [apply HE | done].
  - specialize (Hb x). by destruct (body x).
Qed.

Lemma ends_only_gen_for {A} (E : exn -> Prop) (body : A -> result (list string)) :
  (forall x, match body x with Raise e => E e | Ok _ => True end) ->
  (forall msg, E (SdkError msg)) ->
  forall st, ends_only (Ext := Ext) E (gen_for body st).
Proof. intros Hb HE st s. by apply for_each_ended. Qed.

Ltac errors_step :=
  lazymatch goal with
  | |- fails_only _ (_get_openai _) => apply (fails_only_acquire _ CloudOpenAI)
  | |- fails_only _ (_get_anthropic _) => apply (fails_only_acquire _ CloudAnthropic)
  | |- fails_only _ (_get_gemini _) => apply (fails_only_acquire _ CloudGemini)
  | |- fails_only _ (lift _) => apply fails_only_lift
  | |- fails_only _ (sdk_call _ _) => apply fails_only_sdk_call
  | |- fails_only _ (_ ≫= _) => apply fails_only_bind
  | |- ends_only _ (gen_for _ _) => apply ends_only_gen_for
  | |- ends_only _ (gen_bind _ _) => apply ends_only_gen_bind
  | |- forall _, _ => intro
  end.

(** [chat] and [stream] never raise the [ValueError] for an unknown
    provider that their last branch provides for: [_get_provider] answers
    with one of the four tags, so that branch is dead code.  The only
    [ValueError] that they raise themselves is the one for the missing
    API key, and only for a model that goes to Gemini. *)
Theorem unknown_provider_never_raised
    (model prompt : string) (system : option string) (temperature : float)
    (max_tokens : Z) (kwargs : gmap string kwarg) (s : State Ext) :
  match (chat sdk model prompt system temperature max_tokens kwargs s).1 with
  | Raise e =>
      own_error (_get_provider model) e /\
      e <> ValueError ("Unknown provider for model: " ++ model)
  | Ok _ => True
  end
  /\ match ended (stream sdk model prompt system temperature max_tokens s).1 with
     | Some e =>
         own_error (_get_provider model) e /\
         e <> ValueError ("Unknown provider for model: " ++ model)
     | None => True
     end.
Proof.
  assert (forall e, own_error (_get_provider model) e ->
                    own_error (_get_provider model) e /\
                    e <> ValueError ("Unknown provider for model: " ++ model)) as Hown.
  { intros e He. split; [done |]. intros ->. by destruct He as [_ [=]]. }
  split.
  - assert (fails_only (own_error (_get_provider model))
              (chat sdk model prompt system temperature max_tokens kwargs)) as H.
    { unfold chat.
      by_provider model; try rewrite E;
        [ unfold _chat_ollama | unfold _chat_openai | unfold _chat_anthropic
        | unfold _chat_gemini
        | exfalso; destruct (get_provider_tags model) as [H | [H | [H | H]]];
          rewrite H in *; discriminate ];
        cbv zeta; repeat errors_step; try done;
        try (by intros [=]).
      + unfold ollama_text, getitem.
        destruct (_ !! "message") as [m |]; simpl;
          [destruct (m !! "content"); simpl |]; auto.
      + unfold openai_text, subscriptable.
        destruct (OpenAI.choices _) as [[| ? ?] |]; simpl; auto.
      + unfold anthropic_text, subscriptable.
        destruct (Anthropic.content _) as [[| [] ?] |]; simpl; auto. }
    specialize (H s). destruct (chat _ _ _ _ _ _ _ s).1; [done | by apply Hown].
  - assert (ends_only (own_error (_get_provider model))
              (stream sdk model prompt system temperature max_tokens)) as H.
    { unfold stream.
      by_provider model; try rewrite E;
        [ unfold _stream_ollama | unfold _stream_openai | unfold _stream_anthropic
        | unfold _stream_gemini
        | exfalso; destruct (get_provider_tags model) as [H | [H | [H | H]]];
          rewrite H in *; discriminate ];
        cbv zeta; repeat errors_step; try done;
        try (by intros [=]).
      + by rewrite ollama_chunk_body_text.
      + rewrite openai_chunk_body_text. by destruct (has_choice _).
      + rewrite gemini_chunk_body_text. done. }
    specialize (H s). destruct (ended _); [by apply Hown | done].
Qed.

End Errors.

(** ** A session with one client *)

Section Session.
Context {Ext : Type} (sdk : SDK Ext).

Lemma step_moves (s : State Ext) (o : op) :
  moves (fun _ => True) (fun _ => True) s (step sdk s o).
Proof.
  destruct o as [model prompt system temperature max_tokens kwargs
                | model prompt system temperature max_tokens | | p]; simpl.
  - unfold chat. by_provider model;
      [ unfold _chat_ollama | unfold _chat_openai | unfold _chat_anthropic
      | unfold _chat_gemini | apply moves_refl ];
      repeat moves_step; done.
  - unfold stream. by_provider model;
      [ unfold _stream_ollama | unfold _stream_openai | unfold _stream_anthropic
      | unfold _stream_gemini | apply moves_refl ];
      repeat moves_step; done.
  - unfold list_ollama_models. repeat moves_step; done.
  - by apply moves_acquire.
Qed.

Lemma run_moves ops : forall s : State Ext,
  moves (fun _ => True) (fun _ => True) s (run sdk ops s).
Proof.
  unfold run. induction ops as [| o ops IH]; intros s; [apply moves_refl |].
  simpl. eapply moves_trans; [apply step_moves | apply IH].
Qed.

(** Whatever is done with a client from its creation on -- chats, streams,
    listings, handle acquisitions, in any number and order, failing or
    not -- its cached handles are objects that were handed out and no two
    providers share one; the environment is as it was; the log of SDK
    calls has only grown. *)
Theorem session_keeps_registry (ops : list op) (w : World Ext) :
  registry_ok (run sdk ops (LLMClient_init, w))
  /\ environ (run sdk ops (LLMClient_init, w)).2 = environ w
  /\ next_id w <= next_id (run sdk ops (LLMClient_init, w)).2
  /\ exists new, calls (run sdk ops (LLMClient_init, w)).2 = (calls w ++ new)%list.
Proof.
  destruct (run_moves ops (LLMClient_init, w)) as (He & Hn & (new & Hc & _) & _ & Hr).
  split; [| split; [done | split; [done | by exists new]]].
  apply Hr. split; [by intros [] | by intros [] []].
Qed.

(** An acquisition that succeeds leaves its result in the slot of the
    provider: the handle that was cached, or else a new object with the
    next fresh identity.  An acquisition that fails leaves the client as it
    was, with the slot still empty, so the next use tries again.  The slots
    of the other providers stay as they are in both cases. *)
Theorem acquire_fills_own_slot (p : cloud) (s : State Ext) :
  match acquire sdk p s with
  | (Ok h, s1) =>
      cached p s1.1 = Some h /\
      (cached p s.1 = Some h /\ s1 = s \/
       cached p s.1 = None /\ h = next_id s.2 /\ next_id s1.2 = S (next_id s.2))
  | (Raise e, s1) =>
      s1.1 = s.1 /\ cached p s.1 = None /\ next_id s1.2 = next_id s.2
  end
  /\ forall q, q = p \/ cached q (acquire sdk p s).2.1 = cached q s.1.
Proof.
  split.
  - destruct (cached p s.1) as [h |] eqn:Hp.
    { rewrite (acquire_cached sdk p s h Hp). split; [done | by left]. }
    destruct s as [self w]. simpl in Hp.
    destruct p; simpl in *;
      unfold _get_openai, _get_anthropic, _get_gemini;
      repeat (rewrite M_bind_unfold; simpl); rewrite Hp.
    + rewrite M_bind_unfold. unfold sdk_new.
      destruct (new_OpenAI _ sdk (ext w)) as [[msg | []] e']; simpl; [done |].
      split; [done | right; done].
    + rewrite M_bind_unfold. unfold sdk_new.
      destruct (new_Anthropic _ sdk (ext w)) as [[msg | []] e']; simpl; [done |].
      split; [done | right; done].
    + repeat (rewrite M_bind_unfold; simpl).
      destruct (py_or _ _) as [key |]; [| done].
      destruct (PyStr.truthy key); [| done].
      rewrite M_bind_unfold. unfold sdk_new.
      destruct (new_genai_Client _ sdk key (ext w)) as [[msg | []] e']; simpl; [done |].
      split; [done | right; done].
  - intros q.
    destruct (moves_acquire sdk (fun _ => True) (fun q => q = p) p s)
      as (_ & _ & _ & Hf & _); [done | done |].
    apply Hf.
Qed.

(** Of the extra options of [chat] only [response_format] is read, only
    when it is set (not null, empty or zero), and only for an OpenAI
    model: the call behaves as with the effective options alone, and for a
    model of another provider as with no option at all. *)
Theorem chat_reads_response_format_only
    (model prompt : string) (system : option string) (temperature : float)
    (max_tokens : Z) (kwargs : gmap string kwarg) (s : State Ext) :
  chat sdk model prompt system temperature max_tokens kwargs s
  = chat sdk model prompt system temperature max_tokens (effective_kwargs kwargs) s
  /\ (_get_provider model = "openai" \/
      chat sdk model prompt system temperature max_tokens kwargs s
      = chat sdk model prompt system temperature max_tokens ∅ s).
Proof.
  unfold chat. by_provider model; try (split; [done | by (left + right)]).
  split; [| by left].
  unfold _chat_openai, effective_kwargs. cbv zeta.
  destruct (kwargs !! "response_format") as [v |] eqn:Hv.
  - destruct (kw_truthy v) eqn:Ht.
    + by rewrite lookup_singleton_eq, Ht.
    + by rewrite lookup_empty.
  - by rewrite lookup_empty.
Qed.

End Session.

(** ** What [stream] yields, and what the listing returns *)

Section StreamFragments.
Context {Ext : Type} (sdk : SDK Ext).

Lemma yields_only_gen_bind {A} P (m : M Ext A) (k : A -> G Ext) :
  (forall v, yields_only P (k v)) -> yields_only P (gen_bind m k).
Proof.
  intros Hk s. unfold gen_bind.
  destruct (m s) as [[v | e] s1]; [apply Hk | constructor].
Qed.

Lemma for_each_yielded {A} (P : string -> Prop) (body : A -> result (list string))
    xs fail :
  (forall x, match body x with Ok ys => Forall P ys | Raise _ => True end) ->
  Forall P (yielded (for_each body xs fail)).
Proof.
  intros Hb. induction xs as [| x xs IH]; simpl; [constructor |].
  specialize (Hb x). destruct (body x) as [ys | e]; simpl; [| constructor].
  by apply Forall_app.
Qed.

Lemma yields_only_gen_for {A} (P : string -> Prop) (body : A -> result (list string)) :
  (forall x, match body x with Ok ys => Forall P ys | Raise _ => True end) ->
  forall st, yields_only (Ext := Ext) P (gen_for body st).
Proof. intros Hb st s. by apply for_each_yielded. Qed.

Lemma nonempty_texts_truthy ts :
  Forall (fun f => PyStr.truthy f = true) (nonempty_texts ts).
Proof.
  induction ts as [| [t |] ts IH]; unfold nonempty_texts in *; simpl;
    [constructor | | done].
  destruct (PyStr.truthy t) eqn:Ht; simpl; [by constructor | done].
Qed.

Ltac yields_step :=
  cbv beta zeta;
  lazymatch goal with
  | |- yields_only _ (gen_for _ _) => apply yields_only_gen_for
  | |- yields_only _ (gen_bind _ _) => apply yields_only_gen_bind
  | |- forall _, _ => intro
  end.

(** Every fragment that [stream] yields for a model of Ollama, OpenAI or
    Gemini is a non-empty string, whatever the SDK delivers and however
    the stream ends; only for an Anthropic model can a fragment be
    empty. *)
Theorem stream_yields_nonempty_unless_anthropic
    (model prompt : string) (system : option string) (temperature : float)
    (max_tokens : Z) (s : State Ext) :
  _get_provider model = "anthropic" \/
  Forall (fun f => PyStr.truthy f = true)
         (yielded (stream sdk model prompt system temperature max_tokens s).1).
Proof.
  destruct (String.eqb (_get_provider model) "anthropic") eqn:Ha;
    [left; by apply String.eqb_eq |].
  right. revert s.
  change (yields_only (fun f => PyStr.truthy f = true)
            (stream sdk model prompt system temperature max_tokens)).
  unfold stream. by_provider model;
    [ unfold _stream_ollama | unfold _stream_openai
    | discriminate
    | unfold _stream_gemini | ];
    repeat yields_step.
  - rewrite ollama_chunk_body_text. apply nonempty_texts_truthy.
  - rewrite openai_chunk_body_text.
    destruct (has_choice _); [apply nonempty_texts_truthy | done].
  - rewrite gemini_chunk_body_text. apply nonempty_texts_truthy.
  - intros s. constructor.
Qed.

Lemma names_of_all ms :
  names_of ms
  = if forallb has_name ms then Ok (omap (fun m => m !! "name") ms)
    else Raise (KeyError "name").
Proof.
  induction ms as [| m ms IH]; [done |].
  simpl. unfold has_name at 1, getitem.
  destruct (m !! "name") as [n |]; simpl; [| done].
  rewrite IH. by destruct (forallb has_name ms).
Qed.

(** [list_ollama_models] makes one call, to the listing of the local
    backend, and leaves the client as it is.  It returns the names of the
    listed models in the order of the backend, one per model; the empty
    list when the reply has no ["models"] entry; and no list at all, but a
    [KeyError] for [name], as soon as one listed model has no name.  A
    failure of the backend is passed on. *)
Theorem list_ollama_models_outcome (s : State Ext) :
  (list_ollama_models sdk s).2.1 = s.1
  /\ calls_of (list_ollama_models sdk s).2 = (calls_of s ++ [OllamaList])%list
  /\ match (ollama_list _ sdk (ext s.2)).1 with
     | inl msg => (list_ollama_models sdk s).1 = Raise (SdkError msg)
     | inr listing =>
         match listing !! "models" with
         | None => (list_ollama_models sdk s).1 = Ok []
         | Some ms =>
             (list_ollama_models sdk s).1
             = if forallb has_name ms then Ok (omap (fun m => m !! "name") ms)
               else Raise (KeyError "name")
         end
     end
  /\ (forall names, (list_ollama_models sdk s).1 = Ok names ->
        exists listing, (ollama_list _ sdk (ext s.2)).1 = inr listing /\
                        length names = length (default [] (listing !! "models"))).
Proof.
  destruct s as [self w]. unfold list_ollama_models, calls_of.
  rewrite M_bind_unfold. unfold sdk_call, lift. simpl.
  destruct (ollama_list _ sdk (ext w)) as [[msg | listing] e']; simpl.
  { repeat split; try done. }
  split; [done |]. split; [done |]. split.
  - destruct (listing !! "models") as [ms |]; simpl; [apply names_of_all | done].
  - intros names Hn. exists listing. split; [done |].
    apply names_of_spec in Hn. symmetry. by eapply Forall2_length.
Qed.

End StreamFragments.

(** ** The command-line driver *)

Section Main.
Context {Ext : Type} (sdk : SDK Ext) (help_text : string).

(** A run that is a usage error -- a comparison without a prompt, or a
    single request without a model or without a prompt -- calls no SDK and
    builds no client: it reports, the comparison on the standard error and
    the single request by the help text on the standard output, and exits
    with status 1. *)
Theorem usage_error_calls_nothing (args : Args) (w : World Ext) :
  usage_error args = true ->
  main sdk help_text args w
  = ((if opt_truthy (arg_compare args)
      then [Stderr ("Error: prompt required for comparison" ++ nl)]
      else [Stdout help_text],
      Exit 1),
     (LLMClient_init, w)).
Proof.
  unfold usage_error, main. intros H.
  apply andb_true_iff in H as [Hl H]. apply negb_true_iff in Hl. rewrite Hl.
  destruct (opt_truthy (arg_compare args)); by rewrite H.
Qed.

Lemma list_ollama_models_status (s : State Ext) :
  match (list_ollama_models sdk s).1 with
  | Ok _ => True
  | Raise e => (exists msg, e = SdkError msg) \/ e = KeyError "name"
  end.
Proof.
  destruct s as [self w]. unfold list_ollama_models.
  rewrite M_bind_unfold. unfold sdk_call, lift.
  destruct (ollama_list _ sdk (ext w)) as [[msg | listing] e']; simpl;
    [left; by exists msg |].
  rewrite names_of_all. destruct (forallb has_name _); [done | by right].
Qed.

(** How [main] ends once the command line is parsed.  It returns for a
    listing that succeeds, for a comparison that has its prompt, whatever
    becomes of its models, and for a single request that succeeds.  It
    exits, with status 1, for a usage error and for a single request that
    fails, and for nothing else: never for a listing, never for a
    comparison that has its prompt.  Only a listing can die of an
    exception nobody catches: the one that the listing raised, which is an
    error of the local backend or the [KeyError] for [name]. *)
Theorem main_ends (args : Args) (w : World Ext) :
  match (main sdk help_text args w).1.2 with
  | Returned =>
      usage_error args = false /\
      (if arg_list_ollama args
       then is_ok (list_ollama_models sdk (LLMClient_init, w)).1 = true
       else opt_truthy (arg_compare args) = true \/
            single_request_ok sdk args w = true)
  | Exit code =>
      code = 1%Z /\ arg_list_ollama args = false /\
      (usage_error args = true \/
       (usage_error args = false /\ opt_truthy (arg_compare args) = false /\
        single_request_ok sdk args w = false))
  | Uncaught e =>
      arg_list_ollama args = true /\
      (list_ollama_models sdk (LLMClient_init, w)).1 = Raise e /\
      ((exists msg, e = SdkError msg) \/ e = KeyError "name")
  end.
Proof.
  unfold main, usage_error, single_request_ok.
  destruct (arg_list_ollama args) eqn:Hl; simpl.
  - pose proof (list_ollama_models_status (LLMClient_init, w)) as H.
    destruct (list_ollama_models sdk (LLMClient_init, w)) as [[names | e] s']; simpl;
      [done | by repeat split].
  - destruct (opt_truthy (arg_compare args)) eqn:Hc; simpl.
    + destruct (opt_truthy (arg_prompt args)) eqn:Hp; simpl.
      * destruct (compare_loop sdk args _ _ _). simpl. split; [done | by left].
      * split; [done | split; [done | by left]].
    + destruct (negb (opt_truthy (arg_model args)) || negb (opt_truthy (arg_prompt args)))
        eqn:Hu; simpl.
      * split; [done | split; [done | by left]].
      * destruct (arg_stream args).
        -- destruct (stream sdk _ _ _ _ _ _) as [g s']. simpl.
           destruct (ended g); simpl.
           ++ split; [done | split; [done | right; by repeat split]].
           ++ split; [done | by right].
        -- destruct (chat sdk _ _ _ _ _ _ _) as [[response | e] s']; simpl.
           ++ split; [done | by right].
           ++ split; [done | split; [done | right; by repeat split]].
Qed.

Lemma compare_loop_with_json b args prompt models : forall s : State Ext,
  compare_loop sdk (with_json b args) prompt models s
  = compare_loop sdk args prompt models s.
Proof.
  induction models as [| model models IH]; intros s; [done |].
  cbn [compare_loop with_json arg_system arg_temperature arg_max_tokens].
  destruct (chat sdk model prompt _ _ _ ∅ s) as [r s1]. by rewrite IH.
Qed.

(** The [--json] flag reaches nothing but a single blocking request to an
    OpenAI model: a listing, a comparison, a streamed request and a
    request to a model of another provider run the same with the flag and
    without it. *)
Theorem json_flag_reach (b : bool) (args : Args) (w : World Ext) :
  if arg_list_ollama args || opt_truthy (arg_compare args) || arg_stream args
     || negb (String.eqb (_get_provider (default "" (arg_model args))) "openai")
  then main sdk help_text (with_json b args) w = main sdk help_text args w
  else True.
Proof.
  destruct (arg_list_ollama args) eqn:Hl; simpl.
  { unfold main. cbn [with_json arg_list_ollama]. by rewrite Hl. }
  destruct (opt_truthy (arg_compare args)) eqn:Hc; simpl.
  { unfold main.
    cbn [with_json arg_list_ollama arg_compare arg_prompt]. rewrite Hl, Hc.
    by rewrite compare_loop_with_json. }
  destruct (arg_stream args) eqn:Hs; simpl.
  { unfold main.
    cbn [with_json arg_list_ollama arg_compare arg_prompt arg_model arg_stream
         arg_system arg_temperature arg_max_tokens].
    by rewrite Hl, Hc, Hs. }
  destruct (String.eqb (_get_provider (default "" (arg_model args))) "openai")
    eqn:Ho; simpl; [done |].
  unfold main.
  cbn [with_json arg_list_ollama arg_compare arg_prompt arg_model arg_stream
       arg_system arg_temperature arg_max_tokens arg_json].
  rewrite Hl, Hc, Hs.
  destruct (negb (opt_truthy (arg_model args)) || negb (opt_truthy (arg_prompt args)));
    [done |].
  assert (forall kw kw' : gmap string kwarg,
             chat sdk (default "" (arg_model args)) (default "" (arg_prompt args))
                  (arg_system args) (arg_temperature args) (arg_max_tokens args)
                  kw (LLMClient_init, w)
             = chat sdk (default "" (arg_model args)) (default "" (arg_prompt args))
                    (arg_system args) (arg_temperature args) (arg_max_tokens args)
                    kw' (LLMClient_init, w)) as Hk.
  { intros kw kw'. unfold chat. cbv zeta. rewrite Ho.
    by repeat match goal with |- context [if ?c then _ else _] => destruct c end. }
  by rewrite (Hk _ (if arg_json args
                    then {[ "response_format" := KDict {[ "type" := "json_object" ]} ]}
                    else ∅)).
Qed.

End Main.

(** A comparison without a prompt, on a canned run. *)
Lemma usage_error_calls_nothing_witness :
  usage_error (compare_args "gpt-4o,claude-3-haiku" "") = true
  /\ main (Canned.sdk Canned.usual) "usage"
          (compare_args "gpt-4o,claude-3-haiku" "") (Canned.world ∅)
     = (([Stderr ("Error: prompt required for comparison" ++ nl)], Exit 1),
        (LLMClient_init, Canned.world ∅)).
Proof.
  split; [reflexivity |].
  exact (usage_error_calls_nothing (Canned.sdk Canned.usual) "usage"
           (compare_args "gpt-4o,claude-3-haiku" "") (Canned.world ∅) eq_refl).
Defined.

(** ** The model list of a comparison *)

Section ModelList.

Lemma split_cons sep s : exists p ps, split sep s = p :: ps.
Proof.
  destruct s as [| c s]; simpl; [by eexists _, _ |].
  destruct (Ascii.eqb c sep); [by eexists _, _ |].
  destruct (split sep s); by eexists _, _.
Qed.

Lemma split_length sep s : length (split sep s) = S (count_char sep s).
Proof.
  induction s as [| c s IH]; simpl; [done |].
  destruct (Ascii.eqb c sep); simpl; [by rewrite IH |].
  destruct (split_cons sep s) as (p & ps & Hs). rewrite Hs in *. simpl in *. lia.
Qed.

Lemma split_no_sep sep s : Forall (fun p => count_char sep p = 0) (split sep s).
Proof.
  induction s as [| c s IH]; simpl; [by repeat constructor |].
  destruct (Ascii.eqb c sep) eqn:Hc; [by constructor |].
  destruct (split sep s) as [| p ps]; [repeat constructor; simpl; by rewrite Hc |].
  inversion IH as [| ? ? Hp Hps]; subst. constructor; [| done].
  simpl. by rewrite Hc.
Qed.

Lemma join_cons sep p q r :
  join sep (p :: q :: r) = p ++ sep ++ join sep (q :: r).
Proof. reflexivity. Qed.

Lemma join_split sep s : join (String sep EmptyString) (split sep s) = s.
Proof.
  induction s as [| c s IH]; [done |].
  cbn [split]. destruct (Ascii.eqb c sep) eqn:Hc.
  - apply Ascii.eqb_eq in Hc as ->.
    destruct (split_cons sep s) as (p & ps & Hs). rewrite Hs in *.
    rewrite join_cons, IH. reflexivity.
  - destruct (split_cons sep s) as (p & ps & Hs). rewrite Hs in *.
    destruct ps as [| q r].
    + simpl in *. by rewrite IH.
    + rewrite join_cons in *.
      change (String c p ++ String sep "" ++ join (String sep "") (q :: r))
        with (String c (p ++ String sep "" ++ join (String sep "") (q :: r))).
      by rewrite IH.
Qed.

Lemma lstrip_count c s : count_char c (lstrip s) <= count_char c s.
Proof.
  induction s as [| a s IH]; simpl; [done |].
  destruct (is_space a); simpl; lia.
Qed.

Lemma rstrip_count c s : count_char c (rstrip s) <= count_char c s.
Proof.
  induction s as [| a s IH]; simpl; [done |].
  destruct (rstrip s) as [| b r] eqn:Hr.
  - destruct (is_space a); simpl in *; lia.
  - simpl in *. lia.
Qed.

Lemma lstrip_first s ch : first_char (lstrip s) = Some ch -> is_space ch = false.
Proof.
  induction s as [| a s IH]; simpl; [done |].
  destruct (is_space a) eqn:Ha; [done |]. simpl. by intros [= <-].
Qed.

Lemma rstrip_first s :
  rstrip s = EmptyString \/ first_char (rstrip s) = first_char s.
Proof.
  destruct s as [| a s]; simpl; [by left |].
  destruct (rstrip s); [destruct (is_space a); [by left | by right] | by right].
Qed.

Lemma rstrip_last s ch : last_char (rstrip s) = Some ch -> is_space ch = false.
Proof.
  induction s as [| a s IH]; simpl; [done |].
  destruct (rstrip s) as [| b r] eqn:Hr.
  - destruct (is_space a) eqn:Ha; simpl; [done | by intros [= <-]].
  - intros H. apply IH. exact H.
Qed.

(** A comparison queries one model per comma-separated entry of its
    argument, empty entries included: there is one identifier more than
    there are commas, no identifier holds a comma, none begins or ends
    with white space, and the entries put together again with commas are
    the argument itself. *)
Theorem compare_model_list (arg : string) :
  length (map strip (split ","%char arg)) = S (count_char ","%char arg)
  /\ Forall (fun m =>
               count_char ","%char m = 0 /\
               (forall ch, first_char m = Some ch -> is_space ch = false) /\
               (forall ch, last_char m = Some ch -> is_space ch = false))
            (map strip (split ","%char arg))
  /\ join "," (split ","%char arg) = arg.
Proof.
  split; [by rewrite length_map, split_length |].
  split; [| apply join_split].
  apply Forall_map. eapply Forall_impl; [apply split_no_sep |].
  intros p Hp. cbv beta in Hp |- *. unfold strip. split; [| split].
  - pose proof (rstrip_count ","%char (lstrip p)).
    pose proof (lstrip_count ","%char p). lia.
  - intros ch Hch. destruct (rstrip_first (lstrip p)) as [H | H].
    + by rewrite H in Hch.
    + rewrite H in Hch. by eapply lstrip_first.
  - apply rstrip_last.
Qed.

End ModelList.

(** ** How much a client builds and sends *)

Section Counts.
Context {Ext : Type} (sdk : SDK Ext).

(** Any relation between states that is reflexive and transitive and that
    every SDK call and every handle acquisition respects, is respected by
    every operation on a client. *)
Section Respect.
Variable R : State Ext -> State Ext -> Prop.
Hypothesis R_refl : forall s, R s s.
Hypothesis R_trans : forall s1 s2 s3, R s1 s2 -> R s2 s3 -> R s1 s3.
Hypothesis R_call :
  forall A c (f : Ext -> (string + A) * Ext) s, R s (sdk_call c f s).2.
Hypothesis R_acquire : forall q s, R s (acquire sdk q s).2.

Lemma respect_bind {A B} (m : M Ext A) (k : A -> M Ext B) s :
  R s (m s).2 -> (forall v s1, R s1 (k v s1).2) -> R s ((m ≫= k) s).2.
Proof.
  intros Hm Hk. rewrite M_bind_unfold.
  destruct (m s) as [[v | e] s1]; [| done].
  eapply R_trans; [exact Hm | apply Hk].
Qed.

Lemma respect_gen_bind {A} (m : M Ext A) (k : A -> G Ext) s :
  R s (m s).2 -> (forall v s1, R s1 (k v s1).2) -> R s (gen_bind m k s).2.
Proof.
  intros Hm Hk. unfold gen_bind.
  destruct (m s) as [[v | e] s1]; [| done].
  eapply R_trans; [exact Hm | apply Hk].
Qed.

Ltac respect_step :=
  cbv beta zeta;
  lazymatch goal with
  | |- R _ (_get_openai _ _).2 => apply (R_acquire CloudOpenAI)
  | |- R _ (_get_anthropic _ _).2 => apply (R_acquire CloudAnthropic)
  | |- R _ (_get_gemini _ _).2 => apply (R_acquire CloudGemini)
  | |- R _ (lift _ _).2 => apply R_refl
  | |- R _ (gen_for _ _ _).2 => apply R_refl
  | |- R _ (sdk_call _ _ _).2 => apply R_call
  | |- R _ ((_ ≫= _) _).2 => apply respect_bind
  | |- R _ (gen_bind _ _ _).2 => apply respect_gen_bind
  | |- forall _, _ => intro
  end.

Lemma respect_step_op (s : State Ext) (o : op) : R s (step sdk s o).
Proof.
  destruct o as [model prompt system temperature max_tokens kwargs
                | model prompt system temperature max_tokens | | p]; simpl.
  - unfold chat. by_provider model;
      [ unfold _chat_ollama | unfold _chat_openai | unfold _chat_anthropic
      | unfold _chat_gemini | apply R_refl ];
      repeat respect_step.
  - unfold stream. by_provider model;
      [ unfold _stream_ollama | unfold _stream_openai | unfold _stream_anthropic
      | unfold _stream_gemini | apply R_refl ];
      repeat respect_step.
  - unfold list_ollama_models. repeat respect_step.
  - apply R_acquire.
Qed.

Lemma respect_run ops : forall s, R s (run sdk ops s).
Proof.
  unfold run. induction ops as [| o ops IH]; intros s; [apply R_refl |].
  simpl. eapply R_trans; [apply respect_step_op | apply IH].
Qed.

End Respect.

Lemma balanced_acquire q (s : State Ext) : balanced s (acquire sdk q s).2.
Proof.
  unfold balanced.
  destruct (cached q s.1) as [h |] eqn:Hq.
  { by rewrite (acquire_cached sdk q s h Hq). }
  destruct s as [self w]. simpl in Hq.
  destruct q; simpl in *;
    unfold _get_openai, _get_anthropic, _get_gemini;
    repeat (rewrite M_bind_unfold; simpl); rewrite Hq.
  - rewrite M_bind_unfold. unfold sdk_new.
    destruct (new_OpenAI _ sdk (ext w)) as [[msg | []] e']; simpl; [done |].
    unfold filled. simpl. rewrite Hq. simpl. lia.
  - rewrite M_bind_unfold. unfold sdk_new.
    destruct (new_Anthropic _ sdk (ext w)) as [[msg | []] e']; simpl; [done |].
    unfold filled. simpl. rewrite Hq. simpl. lia.
  - repeat (rewrite M_bind_unfold; simpl).
    destruct (py_or _ _) as [key |]; [| done].
    destruct (PyStr.truthy key); [| done].
    rewrite M_bind_unfold. unfold sdk_new.
    destruct (new_genai_Client _ sdk key (ext w)) as [[msg | []] e']; simpl; [done |].
    unfold filled. simpl. rewrite Hq. simpl. lia.
Qed.

(** A client builds at most three SDK clients in its life, one per
    provider: whatever is done with it from its creation on, the objects
    built are as many as its cache slots that are filled. *)
Theorem session_builds_at_most_three (ops : list op) (w : World Ext) :
  next_id (run sdk ops (LLMClient_init, w)).2
  = next_id w + filled (run sdk ops (LLMClient_init, w)).1
  /\ next_id (run sdk ops (LLMClient_init, w)).2 <= next_id w + 3.
Proof.
  assert (balanced (LLMClient_init, w) (run sdk ops (LLMClient_init, w))) as H.
  { apply (respect_run balanced).
    - intros s. reflexivity.
    - intros s1 s2 s3 H12 H23. unfold balanced in *. lia.
    - intros A c f [self w']. unfold sdk_call, balanced.
      by destruct (f (ext w')) as [r e'].
    - apply balanced_acquire. }
  unfold balanced in H. cbn [fst snd] in H.
  change (filled LLMClient_init) with 0 in H.
  split; [lia |].
  assert (filled (run sdk ops (LLMClient_init, w)).1 <= 3) as Hle.
  { unfold filled.
    destruct (_openai_client _), (_anthropic_client _), (_gemini_client _);
      simpl; lia. }
  lia.
Qed.

Lemma acquire_log q (s : State Ext) :
  exists cs,
    calls_of (acquire sdk q s).2 = (calls_of s ++ cs)%list /\
    length cs <= 1 /\ Forall (fun c => is_constructor c = true) cs.
Proof.
  destruct (cached q s.1) as [h |] eqn:Hq.
  { rewrite (acquire_cached sdk q s h Hq). exists []. rewrite app_nil_r.
    repeat split; by repeat constructor. }
  destruct s as [self w]. simpl in Hq. unfold calls_of.
  destruct q; simpl in *;
    unfold _get_openai, _get_anthropic, _get_gemini;
    repeat (rewrite M_bind_unfold; simpl); rewrite Hq.
  - rewrite M_bind_unfold. unfold sdk_new.
    destruct (new_OpenAI _ sdk (ext w)) as [[msg | []] e']; simpl;
      exists [NewOpenAI]; repeat split; by repeat constructor.
  - rewrite M_bind_unfold. unfold sdk_new.
    destruct (new_Anthropic _ sdk (ext w)) as [[msg | []] e']; simpl;
      exists [NewAnthropic]; repeat split; by repeat constructor.
  - repeat (rewrite M_bind_unfold; simpl).
    destruct (py_or _ _) as [key |];
      [| exists []; simpl; rewrite app_nil_r; repeat split; by repeat constructor].
    destruct (PyStr.truthy key);
      [| exists []; simpl; rewrite app_nil_r; repeat split; by repeat constructor].
    rewrite M_bind_unfold. unfold sdk_new.
    destruct (new_genai_Client _ sdk key (ext w)) as [[msg | []] e']; simpl;
      exists [NewGenaiClient key]; repeat split; by repeat constructor.
Qed.

Lemma one_request_sent cs c :
  length cs <= 1 -> Forall (fun c => is_constructor c = true) cs ->
  is_request c = true -> one_request (cs ++ [c]) true.
Proof. intros Hl Hc Hr. exists cs, [c]. repeat split; try done. by constructor. Qed.

Lemma one_request_unsent cs :
  length cs <= 1 -> Forall (fun c => is_constructor c = true) cs ->
  one_request cs false.
Proof. intros Hl Hc. exists cs, []. rewrite app_nil_r. by repeat split. Qed.

(** The request that follows the acquisition of a handle, and what is
    done with its reply. *)
Lemma request_after_acquire {A B} q (c : handle -> call)
    (f : handle -> Ext -> (string + A) * Ext) (g : A -> result B) (s : State Ext) :
  (forall h, is_request (c h) = true) ->
  exists new sent,
    calls_of ((acquire sdk q ≫= fun h => sdk_call (c h) (f h) ≫= fun r => lift (g r)) s).2
    = (calls_of s ++ new)%list /\
    one_request new sent /\
    (is_ok ((acquire sdk q ≫= fun h => sdk_call (c h) (f h) ≫= fun r => lift (g r)) s).1
     = true -> sent = true).
Proof.
  intros Hreq. rewrite M_bind_unfold.
  destruct (acquire_log q s) as (cs & Hcs & Hlen & Hctor).
  destruct (acquire sdk q s) as [[h | e] [self1 w1]]; unfold calls_of in *; simpl in Hcs.
  - rewrite M_bind_unfold. unfold sdk_call, lift.
    destruct (f h (ext w1)) as [[msg | r] e']; simpl;
      (exists (cs ++ [c h])%list, true;
       split; [by rewrite Hcs, app_assoc | split; [by apply one_request_sent | done]]).
  - exists cs, false. split; [done |]. split; [by apply one_request_unsent | done].
Qed.

Lemma stream_after_acquire {A} q (c : handle -> call)
    (f : handle -> Ext -> (string + Stream A) * Ext)
    (body : A -> result (list string)) (s : State Ext) :
  (forall h, is_request (c h) = true) ->
  exists new sent,
    calls_of (gen_bind (acquire sdk q)
                (fun h => gen_bind (sdk_call (c h) (f h)) (gen_for body)) s).2
    = (calls_of s ++ new)%list /\
    one_request new sent /\
    (ended (gen_bind (acquire sdk q)
              (fun h => gen_bind (sdk_call (c h) (f h)) (gen_for body)) s).1 = None ->
     sent = true).
Proof.
  intros Hreq. unfold gen_bind.
  destruct (acquire_log q s) as (cs & Hcs & Hlen & Hctor).
  destruct (acquire sdk q s) as [[h | e] [self1 w1]]; unfold calls_of in *; simpl in Hcs.
  - unfold sdk_call, gen_for.
    destruct (f h (ext w1)) as [[msg | r] e']; simpl;
      (exists (cs ++ [c h])%list, true;
       split; [by rewrite Hcs, app_assoc | split; [by apply one_request_sent | done]]).
  - exists cs, false. split; [done |]. split; [by apply one_request_unsent | done].
Qed.

(** One chat, and one stream, adds to the log at most one call of a
    constructor and after it at most one chat request, and nothing else:
    no request is repeated, whatever fails.  A chat that returns a
    response, and a stream that ends normally, has sent exactly one
    request. *)
Theorem chat_sends_one_request
    (model prompt : string) (system : option string) (temperature : float)
    (max_tokens : Z) (kwargs : gmap string kwarg) (s : State Ext) :
  (exists new sent,
      calls_of (chat sdk model prompt system temperature max_tokens kwargs s).2
      = (calls_of s ++ new)%list /\
      one_request new sent /\
      (is_ok (chat sdk model prompt system temperature max_tokens kwargs s).1 = true ->
       sent = true))
  /\ (exists new sent,
      calls_of (stream sdk model prompt system temperature max_tokens s).2
      = (calls_of s ++ new)%list /\
      one_request new sent /\
      (ended (stream sdk model prompt system temperature max_tokens s).1 = None ->
       sent = true)).
Proof.
  assert (forall (s0 : State Ext), exists new : list call,
             calls_of s0 = (calls_of s0 ++ new)%list /\ one_request new false) as Hnone.
  { intros s0. exists []. rewrite app_nil_r. split; [done |].
    apply one_request_unsent; by repeat constructor. }
  split.
  - unfold chat. by_provider model.
    + unfold _chat_ollama. cbv zeta. destruct s as [self w].
      rewrite M_bind_unfold. unfold sdk_call, lift, calls_of.
      match goal with |- context [ollama_chat _ sdk ?a ?b ?c ?e] =>
        destruct (ollama_chat _ sdk a b c e) as [[msg | r] e'] end; simpl;
        (eexists [_], true; split; [done | split; [| done]];
         apply (one_request_sent []); by repeat constructor).
    + unfold _chat_openai.
      apply (request_after_acquire CloudOpenAI (fun h => OpenAICreate h _)
               (fun h => openai_create _ sdk h _)). done.
    + unfold _chat_anthropic.
      apply (request_after_acquire CloudAnthropic (fun h => AnthropicCreate h _)
               (fun h => anthropic_create _ sdk h _)). done.
    + unfold _chat_gemini.
      apply (request_after_acquire CloudGemini (fun h => GeminiGenerate h _ _ _)
               (fun h => gemini_generate_content _ sdk h _ _ _)). done.
    + destruct (Hnone s) as (new & H1 & H2). by exists new, false.
  - unfold stream. by_provider model.
    + unfold _stream_ollama. cbv zeta. destruct s as [self w].
      unfold gen_bind, sdk_call, gen_for, calls_of.
      match goal with |- context [ollama_chat_stream _ sdk ?a ?b ?c ?e] =>
        destruct (ollama_chat_stream _ sdk a b c e) as [[msg | r] e'] end; simpl;
        (eexists [_], true; split; [done | split; [| done]];
         apply (one_request_sent []); by repeat constructor).
    + unfold _stream_openai.
      apply (stream_after_acquire CloudOpenAI (fun h => OpenAICreate h _)
               (fun h => openai_create_stream _ sdk h _)). done.
    + unfold _stream_anthropic.
      apply (stream_after_acquire CloudAnthropic (fun h => AnthropicStream h _)
               (fun h => anthropic_stream _ sdk h _)). done.
    + unfold _stream_gemini.
      apply (stream_after_acquire CloudGemini (fun h => GeminiGenerateStream h _ _ _)
               (fun h => gemini_generate_content_stream _ sdk h _ _ _)). done.
    + destruct (Hnone s) as (new & H1 & H2). exists new, false.
      split; [done | split; [done |]]. simpl. done.
Qed.

End Counts.

(** ** Default sampling parameters and extra options *)

Section Defaults.
Context {Ext : Type} (sdk : SDK Ext).

Lemma handle_of_tag p : handle_of (cloud_tag p) = Some p.
Proof. by destruct p. Qed.

(** The request that follows the acquisition of a handle. *)
Lemma request_follows {A B} q (c : handle -> call)
    (f : handle -> Ext -> (string + A) * Ext) (g : A -> result B) (s : State Ext) :
  exists cs,
    length cs <= 1 /\ Forall (fun c => is_constructor c = true) cs /\
    match (acquire sdk q s).1 with
    | Ok h =>
        calls_of ((acquire sdk q ≫= fun h => sdk_call (c h) (f h) ≫= fun r => lift (g r)) s).2
        = (calls_of s ++ cs ++ [c h])%list
    | Raise e =>
        calls_of ((acquire sdk q ≫= fun h => sdk_call (c h) (f h) ≫= fun r => lift (g r)) s).2
        = (calls_of s ++ cs)%list /\
        error_of ((acquire sdk q ≫= fun h => sdk_call (c h) (f h) ≫= fun r => lift (g r)) s).1
        = Some e
    end.
Proof.
  rewrite M_bind_unfold.
  destruct (acquire_log sdk q s) as (cs & Hcs & Hlen & Hctor).
  exists cs. split; [done |]. split; [done |].
  destruct (acquire sdk q s) as [[h | e] [self1 w1]]; unfold calls_of in *; simpl in *.
  - rewrite M_bind_unfold. unfold sdk_call, lift.
    destruct (f h (ext w1)) as [[msg | r] e']; simpl; by rewrite Hcs, app_assoc.
  - done.
Qed.

Lemma stream_follows {A} q (c : handle -> call)
    (f : handle -> Ext -> (string + Stream A) * Ext)
    (body : A -> result (list string)) (s : State Ext) :
  exists cs,
    length cs <= 1 /\ Forall (fun c => is_constructor c = true) cs /\
    match (acquire sdk q s).1 with
    | Ok h =>
        calls_of (gen_bind (acquire sdk q)
                    (fun h => gen_bind (sdk_call (c h) (f h)) (gen_for body)) s).2
        = (calls_of s ++ cs ++ [c h])%list
    | Raise e =>
        calls_of (gen_bind (acquire sdk q)
                    (fun h => gen_bind (sdk_call (c h) (f h)) (gen_for body)) s).2
        = (calls_of s ++ cs)%list /\
        ended (gen_bind (acquire sdk q)
                 (fun h => gen_bind (sdk_call (c h) (f h)) (gen_for body)) s).1
        = Some e
    end.
Proof.
  unfold gen_bind.
  destruct (acquire_log sdk q s) as (cs & Hcs & Hlen & Hctor).
  exists cs. split; [done |]. split; [done |].
  destruct (acquire sdk q s) as [[h | e] [self1 w1]]; unfold calls_of in *; simpl in *.
  - unfold sdk_call, gen_for.
    destruct (f h (ext w1)) as [[msg | r] e']; simpl; by rewrite Hcs, app_assoc.
  - done.
Qed.

Ltac default_request_done E :=
  unfold default_request; try rewrite E; simpl;
  repeat split; unfold sampling; by simplify_map_eq.

(** With the defaults, [chat] sends its one request with them. *)
Lemma chat_defaults model prompt system kwargs (s : State Ext) :
  sends_defaults sdk model s
    (chat sdk model prompt system 0.7%float 1024 kwargs s).2
    (error_of (chat sdk model prompt system 0.7%float 1024 kwargs s).1).
Proof.
  unfold sends_defaults, chat. by_provider model; try rewrite E.
  - exists []. split; [simpl; lia |]. split; [constructor |]. simpl. split; [done |].
    unfold _chat_ollama. cbv zeta. destruct s as [self w].
    rewrite M_bind_unfold. unfold sdk_call, lift, calls_of.
    match goal with |- context [ollama_chat _ sdk ?a ?b ?c ?e] =>
      destruct (ollama_chat _ sdk a b c e) as [[msg | r] e'] end; simpl;
      (eexists; split; [reflexivity |]; default_request_done E).
  - change (handle_of "openai") with (Some CloudOpenAI). unfold _chat_openai. cbv zeta.
    match goal with |- context [sdk_call (OpenAICreate _ ?kw)] =>
      destruct (request_follows CloudOpenAI (fun h => OpenAICreate h kw)
                  (fun h => openai_create _ sdk h kw) openai_text s)
        as (cs & Hlen & Hctor & H) end.
    exists cs. split; [done |]. split; [done |].
    destruct (acquire sdk CloudOpenAI s).1 as [h | e]; [| exact H].
    eexists. split; [exact H |]. unfold default_request. try rewrite E. simpl.
    repeat split; try done; unfold sampling; repeat case_match; by simplify_map_eq.
  - change (handle_of "anthropic") with (Some CloudAnthropic).
    unfold _chat_anthropic. cbv zeta.
    change (PrimFloat.leb 0.7 1) with true. cbv iota.
    match goal with |- context [sdk_call (AnthropicCreate _ ?kw)] =>
      destruct (request_follows CloudAnthropic (fun h => AnthropicCreate h kw)
                  (fun h => anthropic_create _ sdk h kw) anthropic_text s)
        as (cs & Hlen & Hctor & H) end.
    exists cs. split; [done |]. split; [done |].
    destruct (acquire sdk CloudAnthropic s).1 as [h | e]; [| exact H].
    eexists. split; [exact H |]. unfold default_request. try rewrite E. simpl.
    repeat split; try done; unfold sampling; repeat case_match; by simplify_map_eq.
  - change (handle_of "gemini") with (Some CloudGemini).
    unfold _chat_gemini. cbv zeta.
    match goal with |- context [sdk_call (GeminiGenerate _ ?m ?p ?cfg)] =>
      destruct (request_follows CloudGemini (fun h => GeminiGenerate h m p cfg)
                  (fun h => gemini_generate_content _ sdk h m p cfg) gemini_text s)
        as (cs & Hlen & Hctor & H) end.
    exists cs. split; [done |]. split; [done |].
    destruct (acquire sdk CloudGemini s).1 as [h | e]; [| exact H].
    eexists. split; [exact H |]. unfold default_request. try rewrite E. simpl.
    repeat split; try done; unfold sampling; by repeat case_match.
  - exfalso. destruct (get_provider_tags model) as [H | [H | [H | H]]];
      rewrite H in *; discriminate.
Qed.

(** With the defaults, [stream] sends its one request with them. *)
Lemma stream_defaults model prompt system (s : State Ext) :
  sends_defaults sdk model s
    (stream sdk model prompt system 0.7%float 1024 s).2
    (ended (stream sdk model prompt system 0.7%float 1024 s).1).
Proof.
  unfold sends_defaults, stream. by_provider model; try rewrite E.
  - exists []. split; [simpl; lia |]. split; [constructor |]. simpl. split; [done |].
    unfold _stream_ollama. cbv zeta. destruct s as [self w].
    unfold gen_bind, sdk_call, gen_for, calls_of.
    match goal with |- context [ollama_chat_stream _ sdk ?a ?b ?c ?e] =>
      destruct (ollama_chat_stream _ sdk a b c e) as [[msg | r] e'] end; simpl;
      (eexists; split; [reflexivity |]; default_request_done E).
  - change (handle_of "openai") with (Some CloudOpenAI). unfold _stream_openai. cbv zeta.
    match goal with |- context [sdk_call (OpenAICreate _ ?kw)] =>
      destruct (stream_follows CloudOpenAI (fun h => OpenAICreate h kw)
                  (fun h => openai_create_stream _ sdk h kw) openai_chunk_body s)
        as (cs & Hlen & Hctor & H) end.
    exists cs. split; [done |]. split; [done |].
    destruct (acquire sdk CloudOpenAI s).1 as [h | e]; [| exact H].
    eexists. split; [exact H |]. unfold default_request. try rewrite E. simpl.
    repeat split; try done; unfold sampling; repeat case_match; by simplify_map_eq.
  - change (handle_of "anthropic") with (Some CloudAnthropic).
    unfold _stream_anthropic. cbv zeta.
    change (PrimFloat.leb 0.7 1) with true. cbv iota.
    match goal with |- context [sdk_call (AnthropicStream _ ?kw)] =>
      destruct (stream_follows CloudAnthropic (fun h => AnthropicStream h kw)
                  (fun h => anthropic_stream _ sdk h kw) anthropic_chunk_body s)
        as (cs & Hlen & Hctor & H) end.
    exists cs. split; [done |]. split; [done |].
    destruct (acquire sdk CloudAnthropic s).1 as [h | e]; [| exact H].
    eexists. split; [exact H |]. unfold default_request. try rewrite E. simpl.
    repeat split; try done; unfold sampling; repeat case_match; by simplify_map_eq.
  - change (handle_of "gemini") with (Some CloudGemini).
    unfold _stream_gemini. cbv zeta.
    match goal with |- context [sdk_call (GeminiGenerateStream _ ?m ?p ?cfg)] =>
      destruct (stream_follows CloudGemini (fun h => GeminiGenerateStream h m p cfg)
                  (fun h => gemini_generate_content_stream _ sdk h m p cfg)
                  gemini_chunk_body s)
        as (cs & Hlen & Hctor & H) end.
    exists cs. split; [done |]. split; [done |].
    destruct (acquire sdk CloudGemini s).1 as [h | e]; [| exact H].
    eexists. split; [exact H |]. unfold default_request. try rewrite E. simpl.
    repeat split; try done; unfold sampling; by repeat case_match.
  - exfalso. destruct (get_provider_tags model) as [H | [H | [H | H]]];
      rewrite H in *; discriminate.
Qed.

(** C10.  When the caller leaves the sampling parameters out, [chat] and
    [stream] use temperature 0.7 and 1024 output tokens, for every
    provider: the one chat request that they send -- always for the local
    provider, and for the others whenever the client handle can be had --
    goes to the provider of the model and carries these two values under
    the provider's own parameter names; when the handle cannot be had,
    its error is the outcome and no request is sent.  Extra options are
    taken on the blocking path only: a call of [stream] with a keyword
    that names none of its parameters, such as [response_format], fails
    with a [TypeError] before anything happens, while [chat] takes such
    keywords as its [kwargs] and its OpenAI adapter forwards a
    [response_format] that is set. *)
Theorem defaults_and_extra_options
    (model prompt : string) (system : option (option string)) (s : State Ext) :
  (forall extra,
      repeated [] (names extra) = None ->
      sends_defaults sdk model s
        (call_chat sdk model prompt system None None extra s).2
        (error_of (call_chat sdk model prompt system None None extra s).1))
  /\ sends_defaults sdk model s
       (call_stream sdk model prompt system None None [] s).2
       (ended (call_stream sdk model prompt system None None [] s).1)
  /\ (forall (k : keyword) v rest temperature max_tokens, exists msg,
        call_stream sdk model prompt system temperature max_tokens
                    ((k, v) :: rest) s
        = ({| yielded := []; ended := Some (TypeError msg) |}, s))
  /\ (forall v temperature max_tokens,
        call_chat sdk model prompt system temperature max_tokens
                  [(response_format, v)] s
        = chat sdk model prompt (default None system)
               (default DEFAULT_TEMPERATURE temperature)
               (default DEFAULT_MAX_TOKENS max_tokens)
               {[ "response_format" := v ]} s)
  /\ (forall v temperature max_tokens (extra : gmap string kwarg),
        match _get_openai sdk s with
        | (Ok client, s1) =>
            exists kw,
              calls_of (_chat_openai sdk model prompt (default None system)
                          temperature max_tokens
                          (<["response_format" := v]> extra) s).2
              = (calls_of s1 ++ [OpenAICreate client kw])%list /\
              kw !! "response_format" = (if kw_truthy v then Some v else None)
        | (Raise e, s1) =>
            _chat_openai sdk model prompt (default None system)
              temperature max_tokens (<["response_format" := v]> extra) s
            = (Raise e, s1)
        end).
Proof.
  split; [| split; [| split; [| split]]].
  - intros extra Hrep. unfold call_chat. rewrite Hrep. apply chat_defaults.
  - apply stream_defaults.
  - intros k v rest temperature max_tokens. unfold call_stream.
    destruct (repeated [] (names ((k, v) :: rest))); by eexists.
  - intros v temperature max_tokens. reflexivity.
  - intros v temperature max_tokens extra. unfold _chat_openai.
    rewrite M_bind_unfold.
    destruct (_get_openai sdk s) as [[client | e] [self1 w1]]; [| done].
    cbv zeta. rewrite lookup_insert_eq.
    eexists. rewrite M_bind_unfold. unfold sdk_call, lift, calls_of.
    split.
    + by destruct (openai_create _ sdk _ _ (ext w1)) as [[msg | r] e'].
    + destruct (kw_truthy v); by simplify_map_eq.
Qed.

End Defaults.
